(** * Weave: the request/response core of [Weave.py]

    [Weave.py] is a Streamlit page.  On every run the script records the
    Gemini key typed in the sidebar, and when the "Transform" button is
    pressed it checks its inputs, calls [transform_html] (one request to the
    generation service, whose JSON reply is validated by the pydantic model
    [ResponseSchema]) and renders the outcome.

    The embedding keeps that shape.  Python [str] values are byte strings
    (their UTF-8 encoding); the page is the list of Streamlit calls made so
    far; the generation service is a function from the request to what the
    call does (raise, or return a response with or without text); an
    exception that nothing catches ends the script run. *)

From Stdlib Require Import String Ascii List Bool Arith NArith Lia.
From Stdlib Require Import Permutation.
Import ListNotations.
Local Open Scope list_scope.
Local Open Scope string_scope.
Set Warnings "-register-all".

(** ** Python strings *)

Module Py.

(** The characters a Rocq string literal cannot hold directly. *)
Definition dquote : ascii := ascii_of_nat 34.
Definition backslash : ascii := ascii_of_nat 92.
Definition newline : ascii := ascii_of_nat 10.

Definition nl : string := String newline "".
Definition dq : string := String dquote "".

(** [jq] turns every apostrophe of a literal into a double quote, so that
    JSON texts can be written readably: [jq "{'type':'text'}"]. *)
Fixpoint jq (s : string) : string :=
  match s with
  | EmptyString => EmptyString
  | String c r => String (if (c =? "'")%char then dquote else c) (jq r)
  end.

(** [str.lower] on ASCII text: the letters A-Z move to a-z, every other
    byte stays.  Python lowers the letters outside ASCII as well; all the
    format names of the page are ASCII, and the properties that speak of
    lowering keep to such formats. *)
Definition lower_char (c : ascii) : ascii :=
  let n := nat_of_ascii c in
  if ((65 <=? n) && (n <=? 90))%nat then ascii_of_nat (n + 32) else c.

Fixpoint lower (s : string) : string :=
  match s with
  | EmptyString => EmptyString
  | String c r => String (lower_char c) (lower r)
  end.

(** Truth value of a [str] and of an optional [str] ([None] is false). *)
Definition truthy (s : string) : bool :=
  match s with EmptyString => false | String _ _ => true end.

Definition truthy_opt (o : option string) : bool :=
  match o with None => false | Some s => truthy s end.

(** A dict written as a literal: its items in insertion order. *)
Definition dict (V : Type) : Type := list (string * V).

Definition keys {V} (d : dict V) : list string := map fst d.

Fixpoint get {V} (d : dict V) (k : string) : option V :=
  match d with
  | [] => None
  | (k', v) :: d' => if (k' =? k)%string then Some v else get d' k
  end.

End Py.

(** ** JSON texts

    The reader behind [model_validate_json]: the JSON grammar (RFC 8259)
    over the bytes of the text, with the three extra numbers [NaN],
    [Infinity] and [-Infinity] that the reader of pydantic takes as well.
    Objects keep their members in reading order, repeated names included.
    The reader of pydantic moreover refuses values nested more than 200
    deep and integers of thousands of digits; these limits are left out,
    so that this reader accepts such texts. *)

Module JSON.

Import Py.

Inductive json : Type :=
| JNull
| JBool (b : bool)
| JNumber (literal : string)
| JString (s : string)
| JArray (items : list json)
| JObject (members : list (string * json)).

(** What a parser returns: a value and the unread rest, a syntax error, or
    the recursion budget ran out. *)
Inductive parsed (A : Type) : Type :=
| Parsed (a : A) (rest : string)
| Invalid
| Exhausted.
Arguments Parsed {A} a rest.
Arguments Invalid {A}.
Arguments Exhausted {A}.

Definition is_ws (c : ascii) : bool :=
  let n := nat_of_ascii c in
  ((n =? 32) || (n =? 9) || (n =? 10) || (n =? 13))%nat.

Fixpoint skip_ws (s : string) : string :=
  match s with
  | EmptyString => EmptyString
  | String c r => if is_ws c then skip_ws r else s
  end.

Fixpoint strip_prefix (p s : string) : option string :=
  match p with
  | EmptyString => Some s
  | String a p' =>
      match s with
      | EmptyString => None
      | String b s' => if (a =? b)%char then strip_prefix p' s' else None
      end
  end.

(** *** String literals *)

Definition hex_digit (c : ascii) : option N :=
  let n := N_of_ascii c in
  if ((48 <=? n) && (n <=? 57))%N then Some (n - 48)%N
  else if ((65 <=? n) && (n <=? 70))%N then Some (n - 55)%N
  else if ((97 <=? n) && (n <=? 102))%N then Some (n - 87)%N
  else None.

Definition hex4 (a b c d : ascii) : option N :=
  match hex_digit a, hex_digit b, hex_digit c, hex_digit d with
  | Some x, Some y, Some z, Some w => Some (((x * 16 + y) * 16 + z) * 16 + w)%N
  | _, _, _, _ => None
  end.

Definition is_high_surrogate (cp : N) : bool :=
  ((55296 <=? cp) && (cp <=? 56319))%N.
Definition is_low_surrogate (cp : N) : bool :=
  ((56320 <=? cp) && (cp <=? 57343))%N.

Definition join_surrogates (hi lo : N) : N :=
  (65536 + (hi - 55296) * 1024 + (lo - 56320))%N.

Definition byte (n : N) : ascii := ascii_of_N n.

(** The UTF-8 bytes of a code point, in front of [s]. *)
Definition utf8_cons (cp : N) (s : string) : string :=
  if (cp <? 128)%N then String (byte cp) s
  else if (cp <? 2048)%N then
    String (byte (192 + cp / 64)) (String (byte (128 + cp mod 64)) s)
  else if (cp <? 65536)%N then
    String (byte (224 + cp / 4096))
      (String (byte (128 + (cp / 64) mod 64))
         (String (byte (128 + cp mod 64)) s))
  else
    String (byte (240 + cp / 262144))
      (String (byte (128 + (cp / 4096) mod 64))
         (String (byte (128 + (cp / 64) mod 64))
            (String (byte (128 + cp mod 64)) s))).

(** The character a two-character escape stands for. *)
Definition simple_escape (e : ascii) : option ascii :=
  if (e =? dquote)%char then Some dquote
  else if (e =? backslash)%char then Some backslash
  else if (e =? "/")%char then Some "/"%char
  else if (e =? "b")%char then Some (ascii_of_nat 8)
  else if (e =? "f")%char then Some (ascii_of_nat 12)
  else if (e =? "n")%char then Some (ascii_of_nat 10)
  else if (e =? "r")%char then Some (ascii_of_nat 13)
  else if (e =? "t")%char then Some (ascii_of_nat 9)
  else None.

Definition push (f : string -> string) (o : option (string * string))
  : option (string * string) :=
  match o with
  | Some (str, rest) => Some (f str, rest)
  | None => None
  end.

(** The characters of a string literal after its opening quote, up to and
    including the closing quote; the decoded string and what follows. *)
Fixpoint parse_string_chars (s : string) : option (string * string) :=
  match s with
  | EmptyString => None
  | String c r =>
      if (c =? dquote)%char then Some (EmptyString, r)
      else if (c =? backslash)%char then
        match r with
        | EmptyString => None
        | String e r1 =>
            if (e =? "u")%char then
              match r1 with
              | String h1 (String h2 (String h3 (String h4 r2))) =>
                  match hex4 h1 h2 h3 h4 with
                  | None => None
                  | Some hi =>
                      if is_high_surrogate hi then
                        match r2 with
                        | String b (String u (String l1 (String l2
                            (String l3 (String l4 r3))))) =>
                            if (b =? backslash)%char && (u =? "u")%char then
                              match hex4 l1 l2 l3 l4 with
                              | Some lo =>
                                  if is_low_surrogate lo
                                  then push (utf8_cons (join_surrogates hi lo))
                                            (parse_string_chars r3)
                                  else None
                              | None => None
                              end
                            else None
                        | _ => None
                        end
                      else if is_low_surrogate hi then None
                      else push (utf8_cons hi) (parse_string_chars r2)
                  end
              | _ => None
              end
            else
              match simple_escape e with
              | Some ch => push (String ch) (parse_string_chars r1)
              | None => None
              end
        end
      else if (N_of_ascii c <? 32)%N then None
      else push (String c) (parse_string_chars r)
  end.

(** *** Numbers

    An optional minus sign; an integer part that is 0 or starts with a
    digit from 1 to 9; an optional fraction (a point and at least one
    digit); an optional exponent (e or E, an optional sign, at least one
    digit).  A number is kept as its literal text. *)

Definition is_digit (c : ascii) : bool :=
  let n := nat_of_ascii c in ((48 <=? n) && (n <=? 57))%nat.

Fixpoint take_digits (s : string) : string * string :=
  match s with
  | EmptyString => (EmptyString, EmptyString)
  | String c r =>
      if is_digit c
      then let '(ds, rest) := take_digits r in (String c ds, rest)
      else (EmptyString, s)
  end.

Definition digits1 (s : string) : option (string * string) :=
  match take_digits s with
  | (EmptyString, _) => None
  | (ds, rest) => Some (ds, rest)
  end.

Definition parse_int_part (s : string) : option (string * string) :=
  match s with
  | String c r =>
      if (c =? "0")%char then Some ("0", r)
      else if is_digit c then digits1 s
      else None
  | EmptyString => None
  end.

Definition parse_frac_part (s : string) : option (string * string) :=
  match s with
  | String c r =>
      if (c =? ".")%char then
        match digits1 r with
        | Some (ds, rest) => Some (String c ds, rest)
        | None => None
        end
      else Some (EmptyString, s)
  | EmptyString => Some (EmptyString, s)
  end.

Definition parse_exp_part (s : string) : option (string * string) :=
  match s with
  | String c r =>
      if (c =? "e")%char || (c =? "E")%char then
        match r with
        | String sg r' =>
            if (sg =? "+")%char || (sg =? "-")%char then
              match digits1 r' with
              | Some (ds, rest) => Some (String c (String sg ds), rest)
              | None => None
              end
            else
              match digits1 r with
              | Some (ds, rest) => Some (String c ds, rest)
              | None => None
              end
        | EmptyString => None
        end
      else Some (EmptyString, s)
  | EmptyString => Some (EmptyString, s)
  end.

Definition parse_unsigned (s : string) : option (string * string) :=
  match parse_int_part s with
  | None => None
  | Some (i, r1) =>
      match parse_frac_part r1 with
      | None => None
      | Some (f, r2) =>
          match parse_exp_part r2 with
          | None => None
          | Some (e, r3) => Some (i ++ f ++ e, r3)
          end
      end
  end.

Definition parse_number (s : string) : option (string * string) :=
  match s with
  | String c r =>
      if (c =? "-")%char then push (String c) (parse_unsigned r)
      else parse_unsigned s
  | EmptyString => None
  end.

(** *** Values *)

(** One level of each of the three mutually recursive parsers, over the
    parsers of the level below. *)
Section Steps.

Variable value : string -> parsed json.
Variable members : string -> list (string * json) -> parsed json.
Variable elements : string -> list json -> parsed json.

Definition value_step (s : string) : parsed json :=
  match skip_ws s with
  | EmptyString => Invalid
  | String c r =>
      if (c =? "{")%char then
        match skip_ws r with
        | String c' r' =>
            if (c' =? "}")%char then Parsed (JObject []) r'
            else members r []
        | EmptyString => Invalid
        end
      else if (c =? "[")%char then
        match skip_ws r with
        | String c' r' =>
            if (c' =? "]")%char then Parsed (JArray []) r'
            else elements r []
        | EmptyString => Invalid
        end
      else if (c =? dquote)%char then
        match parse_string_chars r with
        | Some (str, rest) => Parsed (JString str) rest
        | None => Invalid
        end
      else if (c =? "t")%char then
        match strip_prefix "rue" r with
        | Some rest => Parsed (JBool true) rest
        | None => Invalid
        end
      else if (c =? "f")%char then
        match strip_prefix "alse" r with
        | Some rest => Parsed (JBool false) rest
        | None => Invalid
        end
      else if (c =? "n")%char then
        match strip_prefix "ull" r with
        | Some rest => Parsed JNull rest
        | None => Invalid
        end
      else if (c =? "N")%char then
        match strip_prefix "aN" r with
        | Some rest => Parsed (JNumber "NaN") rest
        | None => Invalid
        end
      else if (c =? "I")%char then
        match strip_prefix "nfinity" r with
        | Some rest => Parsed (JNumber "Infinity") rest
        | None => Invalid
        end
      else
        match strip_prefix "-Infinity" (String c r) with
        | Some rest => Parsed (JNumber "-Infinity") rest
        | None =>
            match parse_number (String c r) with
            | Some (lit, rest) => Parsed (JNumber lit) rest
            | None => Invalid
            end
        end
  end.

(** The members of an object from its first key on; [acc] holds the
    members already read, last one first. *)
Definition members_step (s : string) (acc : list (string * json))
  : parsed json :=
  match skip_ws s with
  | EmptyString => Invalid
  | String c r =>
      if (c =? dquote)%char then
        match parse_string_chars r with
        | None => Invalid
        | Some (k, r1) =>
            match skip_ws r1 with
            | EmptyString => Invalid
            | String c1 r2 =>
                if (c1 =? ":")%char then
                  match value r2 with
                  | Invalid => Invalid
                  | Exhausted => Exhausted
                  | Parsed v r3 =>
                      match skip_ws r3 with
                      | EmptyString => Invalid
                      | String c2 r4 =>
                          if (c2 =? ",")%char
                          then members r4 ((k, v) :: acc)
                          else if (c2 =? "}")%char
                          then Parsed (JObject (rev ((k, v) :: acc))) r4
                          else Invalid
                      end
                  end
                else Invalid
            end
        end
      else Invalid
  end.

(** The elements of an array from its first element on. *)
Definition elements_step (s : string) (acc : list json) : parsed json :=
  match value s with
  | Invalid => Invalid
  | Exhausted => Exhausted
  | Parsed v r1 =>
      match skip_ws r1 with
      | EmptyString => Invalid
      | String c r2 =>
          if (c =? ",")%char then elements r2 (v :: acc)
          else if (c =? "]")%char then Parsed (JArray (rev (v :: acc))) r2
          else Invalid
      end
  end.

End Steps.

Fixpoint parse_value (fuel : nat) (s : string) {struct fuel} : parsed json :=
  match fuel with
  | O => Exhausted
  | S fuel => value_step (parse_members fuel) (parse_elements fuel) s
  end
with parse_members (fuel : nat) (s : string) (acc : list (string * json))
  {struct fuel} : parsed json :=
  match fuel with
  | O => Exhausted
  | S fuel => members_step (parse_value fuel) (parse_members fuel) s acc
  end
with parse_elements (fuel : nat) (s : string) (acc : list json)
  {struct fuel} : parsed json :=
  match fuel with
  | O => Exhausted
  | S fuel => elements_step (parse_value fuel) (parse_elements fuel) s acc
  end.

(** A whole text is one value between optional white space.  The budget
    is never used up ([parse_value_fuel] below). *)
Definition loads (text : string) : option json :=
  match parse_value (S (2 * String.length text)) text with
  | Parsed v rest =>
      match skip_ws rest with
      | EmptyString => Some v
      | String _ _ => None
      end
  | Invalid => None
  | Exhausted => None
  end.

(** The value of member [k] of an object.  Of two members with one name
    the later one is taken here, as when a dict is filled in reading
    order; no property below depends on that choice. *)
Fixpoint member (k : string) (ms : list (string * json)) : option json :=
  match ms with
  | [] => None
  | (k', v) :: ms' =>
      match member k ms' with
      | Some v' => Some v'
      | None => if (k' =? k)%string then Some v else None
      end
  end.

(** *** Writing strings *)

Definition hex_char (n : N) : ascii :=
  if (n <? 10)%N then ascii_of_N (48 + n) else ascii_of_N (87 + n).

Definition escape_char (c : ascii) : string :=
  let n := N_of_ascii c in
  if (c =? dquote)%char then String backslash (String dquote "")
  else if (c =? backslash)%char then String backslash (String backslash "")
  else if (n =? 8)%N then String backslash "b"
  else if (n =? 12)%N then String backslash "f"
  else if (n =? 10)%N then String backslash "n"
  else if (n =? 13)%N then String backslash "r"
  else if (n =? 9)%N then String backslash "t"
  else if (n <? 32)%N then
    String backslash
      (String "u" (String "0" (String "0"
         (String (hex_char (n / 16)) (String (hex_char (n mod 16)) "")))))
  else String c "".

Fixpoint escape (s : string) : string :=
  match s with
  | EmptyString => EmptyString
  | String c r => escape_char c ++ escape r
  end.

(** A string as a JSON string literal. *)
Definition quote (s : string) : string := dq ++ escape s ++ dq.

(** A compact object whose members are strings or [null]. *)
Definition dumps_optional (v : option string) : string :=
  match v with
  | Some str => quote str
  | None => "null"
  end.

Fixpoint dumps_items (items : list (string * option string)) : string :=
  match items with
  | [] => EmptyString
  | (k, v) :: rest =>
      quote k ++ ":" ++ dumps_optional v
      ++ match rest with
         | [] => EmptyString
         | _ :: _ => "," ++ dumps_items rest
         end
  end.

Definition dumps_object (items : list (string * option string)) : string :=
  "{" ++ dumps_items items ++ "}".

Definition json_of_optional (v : option string) : json :=
  match v with
  | Some str => JString str
  | None => JNull
  end.

Definition json_of_items (items : list (string * option string))
  : list (string * json) :=
  map (fun kv => (fst kv, json_of_optional (snd kv))) items.

End JSON.

(** ** The pydantic model of the reply *)

Module pydantic.

Import Py JSON.

(** The kinds of error a validation reports. *)
Inductive error_type : Type :=
| json_type       (* the input is not a str, bytes or bytearray *)
| json_invalid    (* the text is not JSON *)
| model_type      (* the JSON value is not an object *)
| missing         (* a required field has no member *)
| string_type.    (* a str field holds a value that is not a string *)

Record ErrorDetails : Type := { loc : list string; kind : error_type }.

(** A [ValidationError] carries one entry for every field that failed. *)
Definition validation (A : Type) : Type := (list ErrorDetails + A)%type.

Definition errors_of {A} (f : ErrorDetails + A) : list ErrorDetails :=
  match f with inl e => [e] | inr _ => [] end.

(** [name: str = Field(...)]: a required string. *)
Definition str_field (name : string) (ms : list (string * json))
  : ErrorDetails + string :=
  match member name ms with
  | None => inl {| loc := [name]; kind := missing |}
  | Some (JString s) => inr s
  | Some _ => inl {| loc := [name]; kind := string_type |}
  end.

(** [name: Optional[str] = Field(None, ...)]: a string, [null], or no
    member at all (the default [None]). *)
Definition optional_str_field (name : string) (ms : list (string * json))
  : ErrorDetails + option string :=
  match member name ms with
  | None => inr None
  | Some JNull => inr None
  | Some (JString s) => inr (Some s)
  | Some _ => inl {| loc := [name]; kind := string_type |}
  end.

End pydantic.

Module ResponseSchema.

Import Py JSON pydantic.

(** Lines 27-34.  [type] is a plain [str]: nothing restricts it to the two
    values its description names.  ([from_attributes] is about validating
    Python objects and plays no part in reading JSON.) *)
Record t : Type := {
  type : string;
  message : option string;
  code : option string;
  changes : option string;
  recommendations : option string
}.

(** Validation of a parsed JSON value: an object, every declared field
    checked, members of any other name ignored. *)
Definition model_validate (j : json) : validation t :=
  match j with
  | JObject ms =>
      let f_type := str_field "type" ms in
      let f_message := optional_str_field "message" ms in
      let f_code := optional_str_field "code" ms in
      let f_changes := optional_str_field "changes" ms in
      let f_recommendations := optional_str_field "recommendations" ms in
      match f_type, f_message, f_code, f_changes, f_recommendations with
      | inr ty, inr m, inr c, inr ch, inr r =>
          inr {| type := ty; message := m; code := c; changes := ch;
                 recommendations := r |}
      | _, _, _, _, _ =>
          inl (errors_of f_type ++ errors_of f_message ++ errors_of f_code
               ++ errors_of f_changes ++ errors_of f_recommendations)%list
      end
  | _ => inl [ {| loc := []; kind := model_type |} ]
  end.

(** [ResponseSchema.model_validate_json(data)]; [data] is [None] when the
    response of the service has no text. *)
Definition model_validate_json (data : option string) : validation t :=
  match data with
  | None => inl [ {| loc := []; kind := json_type |} ]
  | Some text =>
      match loads text with
      | None => inl [ {| loc := []; kind := json_invalid |} ]
      | Some j => model_validate j
      end
  end.

(** The JSON text of a reply object, as [model_dump_json(exclude_none=...)]
    writes it: the fields in their declared order, an unset field written
    as [null] or left out.  The script never calls it; it is what
    "a reply serialized to the declared shape" means in the round trip. *)
Definition dump_optional (exclude_none : bool) (name : string)
    (v : option string) : list (string * option string) :=
  match v with
  | Some str => [(name, Some str)]
  | None => if exclude_none then [] else [(name, None)]
  end.

Definition model_dump_json (exclude_none : bool) (r : t) : string :=
  dumps_object
    (("type", Some (type r))
       :: dump_optional exclude_none "message" (message r)
       ++ dump_optional exclude_none "code" (code r)
       ++ dump_optional exclude_none "changes" (changes r)
       ++ dump_optional exclude_none "recommendations" (recommendations r))%list.

End ResponseSchema.

(** ** The request types of the generation service *)

Module types.

Import Py.

Inductive Type_ : Type := OBJECT | STRING.

(** [genai.types.Schema]; a field that the code does not set is [None]. *)
Inductive Schema : Type :=
  Build_Schema (type : Type_) (required : option (list string))
               (enum : option (list string))
               (properties : option (list (string * Schema))).

Definition type (s : Schema) : Type_ :=
  match s with Build_Schema ty _ _ _ => ty end.
Definition required (s : Schema) : option (list string) :=
  match s with Build_Schema _ r _ _ => r end.
Definition enum (s : Schema) : option (list string) :=
  match s with Build_Schema _ _ e _ => e end.
Definition properties (s : Schema) : option (dict Schema) :=
  match s with Build_Schema _ _ _ p => p end.

Record Part : Type := { text : string }.

Module Part.
Definition from_text (text : string) : Part := {| text := text |}.
End Part.

Record Content : Type := { role : string; parts : list Part }.

Record ThinkingConfig : Type := { thinking_budget : nat }.

Record GenerateContentConfig : Type := {
  thinking_config : ThinkingConfig;
  response_mime_type : string;
  response_schema : Schema;
  system_instruction : list Part
}.

(** What one call of [client.models.generate_content] sends. *)
Record Request : Type := {
  model : string;
  contents : list Content;
  config : GenerateContentConfig
}.

End types.

(** ** Running the script *)

Module Run.

Import Py pydantic.

Inductive exception : Type :=
| ValidationError (errors : list ErrorDetails)
| AttributeError (name : string)
| ServiceError (detail : string).   (* whatever the service call raises *)

(** The text given to a Streamlit element: a plain string, or an
    f-string that ends in an exception. *)
Inductive body : Type :=
| Plain (s : string)
| WithException (prefix : string) (e : exception).

(** What the run has done so far that can be seen from outside. *)
Inductive event : Type :=
| Error (b : body)                                   (* st.error *)
| Success (b : body)                                 (* st.success *)
| Code (b : option string) (language : option string) (* st.code *)
| Info (b : body)                                    (* st.info *)
| Warning (b : body)                                 (* st.warning *)
| Text (b : option string)                           (* st.text *)
| SpinnerOn (label : string)                         (* with st.spinner *)
| SpinnerOff
| Client (api_key : option string)                   (* genai.Client *)
| GenerateContent (request : types.Request).

Record state : Type := {
  session_state : dict (option string);
  page : list event
}.

Inductive outcome (A : Type) : Type :=
| Returned (a : A)
| Raised (e : exception).
Arguments Returned {A} a.
Arguments Raised {A} e.

Definition Script (A : Type) : Type := state -> outcome A * state.

Definition ret {A} (a : A) : Script A := fun s => (Returned a, s).

Definition bind {A B} (c : Script A) (k : A -> Script B) : Script B :=
  fun s =>
    match c s with
    | (Returned a, s') => k a s'
    | (Raised e, s') => (Raised e, s')
    end.

Definition raise {A} (e : exception) : Script A := fun s => (Raised e, s).

(** [try: c  except Exception as e: handler e] *)
Definition try_except {A} (c : Script A) (handler : exception -> Script A)
  : Script A :=
  fun s =>
    match c s with
    | (Returned a, s') => (Returned a, s')
    | (Raised e, s') => handler e s'
    end.

(** [with enter ... : c], leaving through [leave] also when [c] raises. *)
Definition with_ {A} (enter leave : Script unit) (c : Script A) : Script A :=
  bind enter (fun _ =>
    fun s =>
      match c s with
      | (Returned a, s') =>
          match leave s' with
          | (Returned _, s'') => (Returned a, s'')
          | (Raised e, s'') => (Raised e, s'')
          end
      | (Raised e, s') =>
          match leave s' with
          | (_, s'') => (Raised e, s'')
          end
      end).

Definition emit (e : event) : Script unit :=
  fun s => (Returned tt,
            {| session_state := session_state s; page := (page s ++ [e])%list |}).

Definition of_validation {A} (v : validation A) : Script A :=
  match v with
  | inr a => ret a
  | inl errors => raise (ValidationError errors)
  end.

(** The requests that reached the service, oldest first. *)
Fixpoint requests (p : list event) : list types.Request :=
  match p with
  | [] => []
  | GenerateContent r :: p' => r :: requests p'
  | _ :: p' => requests p'
  end.

(** The clients that were constructed. *)
Fixpoint clients (p : list event) : list (option string) :=
  match p with
  | [] => []
  | Client k :: p' => k :: clients p'
  | _ :: p' => clients p'
  end.

End Run.

Declare Scope script_scope.
Delimit Scope script_scope with script.
Notation "x <- c ;; k" := (Run.bind c (fun x => k))
  (at level 61, c at next level, right associativity) : script_scope.
Notation "c ;; k" := (Run.bind c (fun _ => k))
  (at level 61, right associativity) : script_scope.
Local Open Scope script_scope.

(** *** Streamlit *)

Module st.

Import Py Run.

Definition error (b : body) : Script unit := emit (Error b).
Definition success (b : body) : Script unit := emit (Success b).
Definition code (b : option string) (language : option string) : Script unit :=
  emit (Code b language).
Definition info (b : body) : Script unit := emit (Info b).
Definition warning (b : body) : Script unit := emit (Warning b).
Definition text (b : option string) : Script unit := emit (Text b).

Definition spinner {A} (label : string) (c : Script A) : Script A :=
  with_ (emit (SpinnerOn label)) (emit SpinnerOff) c.

(** Writing [st.session_state.name = v]: the entry is replaced or added. *)
Fixpoint assign {V} (d : dict V) (name : string) (v : V) : dict V :=
  match d with
  | [] => [(name, v)]
  | (k, x) :: d' =>
      if (k =? name)%string then (k, v) :: d' else (k, x) :: assign d' name v
  end.

Definition session_state_set (name : string) (v : option string) : Script unit :=
  fun s => (Returned tt,
            {| session_state := assign (session_state s) name v;
               page := page s |}).

(** [st.session_state.get(name)]: [None] when there is no such entry. *)
Definition session_state_get (name : string) : Script (option string) :=
  fun s =>
    (Returned (match get (session_state s) name with
               | Some v => v
               | None => None
               end), s).

(** Reading [st.session_state.name], which raises when nothing was ever
    assigned to it. *)
Definition session_state_attr (name : string) : Script (option string) :=
  fun s =>
    match get (session_state s) name with
    | Some v => (Returned v, s)
    | None => (Raised (AttributeError name), s)
    end.

End st.

(** *** The generation service *)

Module genai.

Import Py Run.

(** What a call of the service does: it raises, or returns a response
    whose [text] may be [None]. *)
Inductive reply : Type :=
| Raises (e : exception)
| Response (text : option string).

Definition service : Type := types.Request -> reply.

Definition Client (api_key : option string) : Script unit :=
  emit (Client api_key).

Definition generate_content (srv : service) (model : string)
    (contents : list types.Content) (config : types.GenerateContentConfig)
  : Script (option string) :=
  let request :=
    {| types.model := model; types.contents := contents;
       types.config := config |} in
  emit (GenerateContent request) ;;
  match srv request with
  | Raises e => raise e
  | Response text => ret text
  end.

End genai.

(** ** The program *)

Import Py JSON pydantic Run.

(** Lines 82-141: the system instruction, as it is in the source. *)
Definition system_instruction_text : string :=
  "You are **Weave**, an AI-powered front-end design assistant with deep expertise in **HTML**, **CSS**, **JavaScript**, **React**, **Vue**, **Flutter**, and **Tailwind CSS**.

## Purpose  
Your mission is to **analyze, improve, and transform** front-end UI templates according to modern **UI/UX design principles**, **responsive layout techniques**, and **framework-specific conventions** — including cross-platform support for **web** and **mobile** via **Flutter**.

## Core Capabilities
- Detect design flaws and visual inconsistencies  
- Apply responsive design patterns across all breakpoints
- Make sure the font sizes are reponsive the navbars (if any) are accessible
- Ensure semantic HTML and accessible component structure
- Refactor code for maintainability using reusable components
- Output framework-specific, production-ready code:
  - `JSX` for **React**
  - `SFC` for **Vue 3** (`<template>`, `<script setup>`)
  - Clean, modular HTML with Tailwind CSS or inline styles
  - `Dart`-based **Flutter widgets** with clean widget trees and layout separation
- Make changes to the template if the user asks for.
- Recommend the user for improvements or new features if that could lead to better Ui or Ux.

## Input  
You will receive:
- A raw UI `TEMPLATE` written in **HTML**
- A `FORMAT` directive specifying the desired output:
  - `"
  ++ dq ++ "html"
  ++ dq ++ "` → Return optimized HTML5 with Tailwind (or inline CSS)
  - `"
  ++ dq ++ "react"
  ++ dq ++ "` → Return a modular React functional component using JSX and Tailwind (or CSS Modules)
  - `"
  ++ dq ++ "vue"
  ++ dq ++ "` → Return a Vue 3 Single File Component with Tailwind and `<script setup>`
  - `"
  ++ dq ++ "flutter"
  ++ dq ++ "` → Return Dart code using Flutter widgets (`StatelessWidget` or `StatefulWidget`) with best practices

### User Requested Changes
If the user asks to update the code then follow their instruction as closely as possible.

### Maintainability Directive  
If the UI contains **repeating patterns**, **visually distinct sections**, or **logic separation opportunities**, you must:
- Extract them into **custom subcomponents**:
  - For `react`, `vue`, and `flutter` use components/widgets like `CustomButton`, `CardWidget`, `InputField`
- Name components clearly and use them appropriately
- Separate layout structure and styling concerns where applicable (e.g., use `Container`, `Padding`, `Column`, etc. in Flutter)

## Output Rules
- Return **only** the code in the specified format (`html`, `react`, `vue`, or `flutter`)
- All of your responses must be formatted in a common json schema
  - Every message must have a type key that will indicate if it's ui related or normal text. It will have two values `code` and `text` and it will the in the `type` key (value type string).
  - If the type is `code` then it must have these kv pairs otherwise null or completely ommit these fields.
    - The output json will have the updated code in the `code` key (value type string).
  - If the type is `text` it must have a `message` key with the actual message (value type string).
- Do **not** include explanations or extra comments in the code unless explicitly requested
- Always ensure **minimal, meaningful improvements** — prioritize polish, not complete rewrites
- Output must be **syntactically correct and copy-paste ready**
- For component-based outputs (`react`, `vue`, and `flutter`), define subcomponents inline at the bottom or mention them for separation if repetitive

## Behavior
Inputs will follow this structure for template improvements:
FORMAT: <html|react|vue|flutter>
TEMPLATE: <HTML snippet needing improvement>

Your job is to output the **final, cleaned, modular, and responsive** version in the specified format — honoring platform conventions, user experience best practices, and maintainability.

**NOTE**: If the input does not follow the specified structure then the user might want to update your last outputted design. The first message will always follow the structure if it don't then don't ask the user to follow the structure but process user query normally.
**Your response must be only the json output as text do not format the output as markdown code block**
**You must not process any requests other than your core capabilities or greetings**".

(** Lines 54-143: the configuration sent with every request. *)
Definition generate_content_config : types.GenerateContentConfig :=
  {| types.thinking_config := {| types.thinking_budget := 2018 |};
     types.response_mime_type := "application/json";
     types.response_schema :=
       types.Build_Schema types.OBJECT (Some ["type"]) None
         (Some
            [ ("type",
               types.Build_Schema types.STRING None (Some ["code"; "text"]) None);
              ("message", types.Build_Schema types.STRING None None None);
              ("code", types.Build_Schema types.STRING None None None);
              ("changes", types.Build_Schema types.STRING None None None);
              ("recommendations",
               types.Build_Schema types.STRING None None None) ]);
     types.system_instruction := [ types.Part.from_text system_instruction_text ]
  |}.

Section Weave.

(** The generation service the page talks to. *)
Variable service : genai.service.

(** Lines 36-155. *)
Definition transform_html (output_format template : string)
  : Script (option ResponseSchema.t) :=
  key <- st.session_state_get "gemini_api_key" ;;
  if negb (truthy_opt key) then
    st.error (Plain "Please enter your Gemini API key in the sidebar.") ;;
    ret None
  else
    api_key <- st.session_state_get "gemini_api_key" ;;
    genai.Client api_key ;;
    let model := "gemini-2.5-flash-preview-05-20" in
    let contents :=
      [ {| types.role := "user";
           types.parts :=
             [ types.Part.from_text
                 ("FORMAT: " ++ lower output_format ++ nl
                  ++ "TEMPLATE: " ++ template) ] |} ] in
    generated_content <-
      genai.generate_content service model contents generate_content_config ;;
    try_except
      (validated_response <-
         of_validation (ResponseSchema.model_validate_json generated_content) ;;
       ret (Some validated_response))
      (fun e =>
         st.error (WithException "Error in response schema validation: " e) ;;
         ret None).

(** Lines 167-172. *)
Definition output_lang_map : dict string :=
  [ ("HTML", "html"); ("React", "javascript"); ("Vue", "html");
    ("Flutter", "dart") ].

(** Lines 193-204: what is drawn for the value [transform_html] returned.
    A model instance is always true, [None] is false. *)
Definition display (output_format : string)
    (transformed_output : option ResponseSchema.t) : Script unit :=
  match transformed_output with
  | Some out =>
      if (ResponseSchema.type out =? "code")%string then
        st.success (Plain "Transformation successful!") ;;
        st.code (ResponseSchema.code out) (get output_lang_map output_format) ;;
        (match ResponseSchema.changes out with
         | Some c =>
             if truthy c then st.info (Plain ("Changes made: " ++ c))
             else ret tt
         | None => ret tt
         end) ;;
        (match ResponseSchema.recommendations out with
         | Some r =>
             if truthy r then st.warning (Plain ("Recommendations: " ++ r))
             else ret tt
         | None => ret tt
         end)
      else
        st.text (ResponseSchema.message out)
  | None => st.error (Plain "Failed to transform the HTML code.")
  end.

(** Lines 189-204: the body of the spinner block. *)
Definition transform_and_display (output_format html_to_transform : string)
  : Script unit :=
  transformed_output <-
    transform_html (lower output_format) html_to_transform ;;
  display output_format transformed_output.

(** The values the widgets hold in one run of the script. *)
Record widgets : Type := {
  gemini_api_key : string;            (* st.text_input, sidebar *)
  html_to_transform : string;         (* st.text_area *)
  output_format : option string;      (* st.pills *)
  Transform : bool                    (* st.button *)
}.


(** Lines 14-24: the sidebar stores the key, or [None] for an empty one. *)
Definition sidebar (w : widgets) : Script unit :=
  if truthy (gemini_api_key w)
  then st.session_state_set "gemini_api_key" (Some (gemini_api_key w))
  else st.session_state_set "gemini_api_key" None.

(** Lines 181-204: the button was pressed. *)
Definition on_Transform (w : widgets) : Script unit :=
  if negb (truthy (html_to_transform w)) then
    st.error (Plain "Please enter some HTML code to transform.")
  else
    match output_format w with
    | None => st.error (Plain "Please select an output format.")
    | Some fmt =>
        if negb (truthy fmt) then
          st.error (Plain "Please select an output format.")
        else
          key <- st.session_state_attr "gemini_api_key" ;;
          match key with
          | None =>
              st.error (Plain "Please enter your Gemini API key in the sidebar.")
          | Some _ =>
              st.spinner "Transforming..."
                (transform_and_display fmt (html_to_transform w))
          end
    end.

(** One run of the script. *)
Definition Weave (w : widgets) : Script unit :=
  sidebar w ;;
  if Transform w then on_Transform w else ret tt.

End Weave.

Definition fresh (ss : dict (option string)) : state :=
  {| session_state := ss; page := [] |}.

Definition always (text : string) : genai.service :=
  fun _ => genai.Response (Some text).


(** * Vocabulary of the properties *)

(** A parser that never returns more than it was given. *)
Definition shrinks {A} (p : string -> parsed A) : Prop :=
  forall s v r, p s = Parsed v r -> String.length r <= String.length s.

(** What [st.session_state.get("gemini_api_key")] yields in a state. *)
Definition credential (s : state) : option string :=
  match get (session_state s) "gemini_api_key" with
  | Some v => v
  | None => None
  end.

(** The state after further events. *)
Definition after (s : state) (es : list event) : state :=
  {| session_state := session_state s; page := (page s ++ es)%list |}.

(** The request of lines 45-143 for a format and a template. *)
Definition request_of (output_format template : string) : types.Request :=
  {| types.model := "gemini-2.5-flash-preview-05-20";
     types.contents :=
       [ {| types.role := "user";
            types.parts :=
              [ {| types.text :=
                     "FORMAT: " ++ lower output_format ++ nl
                     ++ "TEMPLATE: " ++ template |} ] |} ];
     types.config := generate_content_config |}.

(** The messages of a request: the role and the texts of each. *)
Definition messages (r : types.Request) : list (string * list string) :=
  map (fun c => (types.role c, map types.text (types.parts c)))
      (types.contents r).

(** The notices of lines 38, 153 and 204. *)
Definition key_notice : event :=
  Error (Plain "Please enter your Gemini API key in the sidebar.").

Definition validation_notice (errors : list ErrorDetails) : event :=
  Error (WithException "Error in response schema validation: "
           (ValidationError errors)).

Definition failure_notice : event :=
  Error (Plain "Failed to transform the HTML code.").

(** The notes [display] draws under a code block. *)
Definition notes (r : ResponseSchema.t) : list event :=
  (match ResponseSchema.changes r with
   | Some c => if truthy c then [Info (Plain ("Changes made: " ++ c))] else []
   | None => []
   end
   ++ match ResponseSchema.recommendations r with
      | Some c =>
          if truthy c then [Warning (Plain ("Recommendations: " ++ c))] else []
      | None => []
      end)%list.

(** The events [display] adds to the page. *)
Definition drawn (output_format : string) (t : option ResponseSchema.t)
  : list event :=
  match t with
  | None => [failure_notice]
  | Some r =>
      if (ResponseSchema.type r =? "code")%string
      then Success (Plain "Transformation successful!")
           :: Code (ResponseSchema.code r) (get output_lang_map output_format)
           :: notes r
      else [Text (ResponseSchema.message r)]
  end.

(** What the sidebar stores for the key typed by the user. *)
Definition stored (w : widgets) : option string :=
  if truthy (gemini_api_key w) then Some (gemini_api_key w) else None.

(** The state in which the button is looked at. *)
Definition ready (w : widgets) (ss : dict (option string)) : state :=
  {| session_state := st.assign ss "gemini_api_key" (stored w); page := [] |}.

(** The requests one run of the page sends, and the clients it makes. *)
Definition sent (w : widgets) : list types.Request :=
  match output_format w with
  | Some fmt =>
      if Transform w && truthy (html_to_transform w) && truthy fmt
         && truthy (gemini_api_key w)
      then [request_of fmt (html_to_transform w)]
      else []
  | None => []
  end.

(** The closed set of output formats. *)
Definition formats : list string := ["html"; "react"; "vue"; "flutter"].

(** Inputs on which the properties are run. *)
Definition button_page : widgets :=
  {| gemini_api_key := "key";
     html_to_transform := "<button>Click</button>";
     output_format := Some "HTML";
     Transform := true |}.

Definition padded_button : ResponseSchema.t :=
  {| ResponseSchema.type := "code";
     ResponseSchema.message := None;
     ResponseSchema.code :=
       Some (jq "<button class='px-4 py-2'>Click</button>");
     ResponseSchema.changes := Some "Added padding";
     ResponseSchema.recommendations := None |}.

Definition with_key : state :=
  {| session_state := [("gemini_api_key", Some "key")]; page := [] |}.


(** The [type] members of a raw reply: the values of all members of that
    name when the text is a JSON object, none otherwise. *)
Definition raw_types (text : string) : list json :=
  match loads text with
  | Some (JObject ms) =>
      map snd (filter (fun kv => (fst kv =? "type")%string) ms)
  | _ => []
  end.


Definition no_template_page : widgets :=
  {| gemini_api_key := "key"; html_to_transform := "";
     output_format := Some "React"; Transform := true |}.

(** The response shape declaration a request carries. *)
Definition shape (request : types.Request) : types.Schema :=
  types.response_schema (types.config request).

Definition bare_code : ResponseSchema.t :=
  {| ResponseSchema.type := "code"; ResponseSchema.message := None;
     ResponseSchema.code := None; ResponseSchema.changes := None;
     ResponseSchema.recommendations := None |}.

Definition image_reply : ResponseSchema.t :=
  {| ResponseSchema.type := "image"; ResponseSchema.message := None;
     ResponseSchema.code := None; ResponseSchema.changes := None;
     ResponseSchema.recommendations := None |}.

(** A page on which the button is pressed with nothing filled in. *)
Definition missing_all : widgets :=
  {| gemini_api_key := ""; html_to_transform := "";
     output_format := None; Transform := true |}.

(** The names of the fields [ResponseSchema] declares. *)
Definition declared (name : string) : bool :=
  existsb (String.eqb name)
    ["type"; "message"; "code"; "changes"; "recommendations"].

(** An optional field that is set is a string member of its name. *)
Definition carried (name : string) (v : option string)
    (ms : list (string * json)) : Prop :=
  match v with
  | Some str => In (name, JString str) ms
  | None => True
  end.

(** Two more pages with every input filled in. *)
Definition vue_page : widgets :=
  {| gemini_api_key := "key"; html_to_transform := "<p>";
     output_format := Some "Vue"; Transform := true |}.

Definition react_page : widgets :=
  {| gemini_api_key := "key";
     html_to_transform := "<button>Click</button>";
     output_format := Some "React"; Transform := true |}.

(** A service whose call raises, and one whose response has no text. *)
Definition failing : genai.service :=
  fun _ => genai.Raises (ServiceError "quota").

Definition silent : genai.service := fun _ => genai.Response None.

(** ** The JSON texts of an object of strings

    The concrete syntax of JSON (RFC 8259) for an object whose members are
    strings or null, as data: which white space stands between the tokens
    and how each character of a string is written.  [object_text] is the
    text of such a layout and [object_value] what it stands for. *)

(** White space: space, tab, line feed, carriage return. *)
Inductive space : Type := Sp | Tab | Lf | Cr.

Definition space_char (w : space) : ascii :=
  match w with
  | Sp => ascii_of_nat 32
  | Tab => ascii_of_nat 9
  | Lf => ascii_of_nat 10
  | Cr => ascii_of_nat 13
  end.

Fixpoint blank (ws : list space) : string :=
  match ws with
  | [] => EmptyString
  | w :: rest => String (space_char w) (blank rest)
  end.

(** One written unit of a string literal: a character as it is, a
    two-character escape, a four-digit escape, or a surrogate pair of two
    four-digit escapes. *)
Inductive glyph : Type :=
| Raw (c : ascii)
| Short (e : ascii)
| Unit (h1 h2 h3 h4 : ascii)
| Pair (h1 h2 h3 h4 l1 l2 l3 l4 : ascii).

Fixpoint assoc {A} (c : ascii) (table : list (ascii * A)) : option A :=
  match table with
  | [] => None
  | (c', a) :: rest => if (c' =? c)%char then Some a else assoc c rest
  end.

Definition hex_digits : list (ascii * N) :=
  [ ("0", 0); ("1", 1); ("2", 2); ("3", 3); ("4", 4); ("5", 5); ("6", 6);
    ("7", 7); ("8", 8); ("9", 9);
    ("a", 10); ("b", 11); ("c", 12); ("d", 13); ("e", 14); ("f", 15);
    ("A", 10); ("B", 11); ("C", 12); ("D", 13); ("E", 14); ("F", 15)
  ]%char%N.

Definition code_unit (h1 h2 h3 h4 : ascii) : option N :=
  match assoc h1 hex_digits, assoc h2 hex_digits,
        assoc h3 hex_digits, assoc h4 hex_digits with
  | Some a, Some b, Some c, Some d => Some (4096 * a + 256 * b + 16 * c + d)%N
  | _, _, _, _ => None
  end.

(** The two-character escapes: the letter after the backslash and the
    character it stands for. *)
Definition short_escapes : list (ascii * ascii) :=
  [ (dquote, dquote); (backslash, backslash); ("/"%char, "/"%char);
    ("b"%char, ascii_of_nat 8); ("f"%char, ascii_of_nat 12);
    ("n"%char, ascii_of_nat 10); ("r"%char, ascii_of_nat 13);
    ("t"%char, ascii_of_nat 9) ].

(** UTF-8 (RFC 3629): one to four bytes for a code point, six bits of it
    in each byte after the first. *)
Definition utf8 (cp : N) : string :=
  if (cp <? 128)%N then String (ascii_of_N cp) ""
  else if (cp <? 2048)%N then
    String (ascii_of_N (192 + cp / 64))
      (String (ascii_of_N (128 + cp mod 64)) "")
  else if (cp <? 65536)%N then
    String (ascii_of_N (224 + cp / 4096))
      (String (ascii_of_N (128 + (cp / 64) mod 64))
         (String (ascii_of_N (128 + cp mod 64)) ""))
  else
    String (ascii_of_N (240 + cp / 262144))
      (String (ascii_of_N (128 + (cp / 4096) mod 64))
         (String (ascii_of_N (128 + (cp / 64) mod 64))
            (String (ascii_of_N (128 + cp mod 64)) ""))).

Definition glyph_text (g : glyph) : string :=
  match g with
  | Raw c => String c ""
  | Short e => String backslash (String e "")
  | Unit h1 h2 h3 h4 =>
      String backslash
        (String "u" (String h1 (String h2 (String h3 (String h4 "")))))
  | Pair h1 h2 h3 h4 l1 l2 l3 l4 =>
      String backslash
        (String "u" (String h1 (String h2 (String h3 (String h4
           (String backslash
              (String "u" (String l1 (String l2 (String l3
                 (String l4 "")))))))))))
  end.

(** The bytes a glyph stands for; none when it is not allowed: a raw
    quote, backslash or control character, an unknown escape, a digit that
    is not hexadecimal, a surrogate on its own or a pair in wrong order. *)
Definition glyph_value (g : glyph) : option string :=
  match g with
  | Raw c =>
      if (32 <=? N_of_ascii c)%N && negb (c =? dquote)%char
         && negb (c =? backslash)%char
      then Some (String c "") else None
  | Short e =>
      match assoc e short_escapes with
      | Some ch => Some (String ch "")
      | None => None
      end
  | Unit h1 h2 h3 h4 =>
      match code_unit h1 h2 h3 h4 with
      | Some cp =>
          if (cp <? 55296)%N || (57343 <? cp)%N then Some (utf8 cp) else None
      | None => None
      end
  | Pair h1 h2 h3 h4 l1 l2 l3 l4 =>
      match code_unit h1 h2 h3 h4, code_unit l1 l2 l3 l4 with
      | Some hi, Some lo =>
          if (55296 <=? hi)%N && (hi <=? 56319)%N
             && (56320 <=? lo)%N && (lo <=? 57343)%N
          then Some (utf8 (65536 + (hi - 55296) * 1024 + (lo - 56320))%N)
          else None
      | _, _ => None
      end
  end.

Fixpoint glyphs_text (gs : list glyph) : string :=
  match gs with
  | [] => EmptyString
  | g :: rest => glyph_text g ++ glyphs_text rest
  end.

Fixpoint glyphs_value (gs : list glyph) : option string :=
  match gs with
  | [] => Some EmptyString
  | g :: rest =>
      match glyph_value g, glyphs_value rest with
      | Some v, Some vs => Some (v ++ vs)
      | _, _ => None
      end
  end.

Definition literal_text (gs : list glyph) : string :=
  dq ++ glyphs_text gs ++ dq.

(** A member: its key, its value (a string literal, or [null] for
    [None]), and the white space around them. *)
Record member_layout : Type := {
  before_key : list space;
  key : list glyph;
  after_key : list space;
  before_value : list space;
  content : option (list glyph);
  after_value : list space
}.

Definition value_text (v : option (list glyph)) : string :=
  match v with
  | Some gs => literal_text gs
  | None => "null"
  end.

Definition member_text (m : member_layout) : string :=
  blank (before_key m) ++ literal_text (key m) ++ blank (after_key m)
  ++ ":" ++ blank (before_value m) ++ value_text (content m)
  ++ blank (after_value m).

Definition member_value (m : member_layout)
  : option (string * option string) :=
  match glyphs_value (key m), content m with
  | Some k, None => Some (k, None)
  | Some k, Some gs =>
      match glyphs_value gs with
      | Some v => Some (k, Some v)
      | None => None
      end
  | None, _ => None
  end.

Fixpoint members_text (ms : list member_layout) : string :=
  match ms with
  | [] => EmptyString
  | m :: rest =>
      member_text m
      ++ match rest with
         | [] => EmptyString
         | _ :: _ => "," ++ members_text rest
         end
  end.

Fixpoint members_value (ms : list member_layout)
  : option (list (string * option string)) :=
  match ms with
  | [] => Some []
  | m :: rest =>
      match member_value m, members_value rest with
      | Some kv, Some kvs => Some (kv :: kvs)
      | _, _ => None
      end
  end.

Record object_layout : Type := {
  before : list space;
  members : list member_layout;
  behind : list space
}.

Definition object_text (o : object_layout) : string :=
  blank (before o) ++ "{" ++ members_text (members o) ++ "}"
  ++ blank (behind o).

Definition object_value (o : object_layout)
  : option (list (string * option string)) :=
  members_value (members o).

(** The reply object that a list of members with different names stands
    for: [type] is there and is a string; an optional field is its member
    when that is a string, and unset when the member is null or absent. *)
Definition optional_item (items : list (string * option string))
    (name : string) : option string :=
  match get items name with
  | Some (Some str) => Some str
  | _ => None
  end.

Definition reply_of_items (items : list (string * option string))
  : option ResponseSchema.t :=
  match get items "type" with
  | Some (Some ty) =>
      Some {| ResponseSchema.type := ty;
              ResponseSchema.message := optional_item items "message";
              ResponseSchema.code := optional_item items "code";
              ResponseSchema.changes := optional_item items "changes";
              ResponseSchema.recommendations :=
                optional_item items "recommendations" |}
  | _ => None
  end.

(** The glyphs of a string written as it is. *)
Fixpoint raw (s : string) : list glyph :=
  match s with
  | EmptyString => []
  | String c r => Raw c :: raw r
  end.

(** A reply written with white space, its members out of order, escapes
    of every kind and a null. *)
Definition spaced_layout : object_layout :=
  {| before := [Sp];
     members :=
       [ {| before_key := [Sp]; key := raw "code"; after_key := [Sp];
            before_value := [Sp];
            content :=
              Some ([ Unit "0" "0" "e" "9";
                      Pair "d" "8" "3" "e" "d" "e" "a" "1" ]
                    ++ raw "<div" ++ [Short "/"; Raw ">"; Short "n"])%list;
            after_value := [Sp] |};
         {| before_key := [Lf; Sp]; key := raw "type"; after_key := [];
            before_value := []; content := Some (raw "code");
            after_value := [] |};
         {| before_key := []; key := raw "changes"; after_key := [];
            before_value := []; content := None; after_value := [] |} ];
     behind := [Lf] |}.

Definition spaced_items : list (string * option string) :=
  [ ("code", Some ("é🪡<div/>" ++ nl)); ("type", Some "code");
    ("changes", None) ].

Definition spaced_reply : ResponseSchema.t :=
  {| ResponseSchema.type := "code"; ResponseSchema.message := None;
     ResponseSchema.code := Some ("é🪡<div/>" ++ nl);
     ResponseSchema.changes := None;
     ResponseSchema.recommendations := None |}.


(** Python's [str] of an optional string: [str(None)] is the word None.
    [st.code] converts its body with it. *)
Definition py_str (b : option string) : string :=
  match b with
  | Some s => s
  | None => "None"
  end.

(** The strings all of whose bytes are ASCII; on these [lower] is Python's
    [str.lower]. *)
Fixpoint ascii_only (s : string) : bool :=
  match s with
  | EmptyString => true
  | String c r => (N_of_ascii c <? 128)%N && ascii_only r
  end.

(** * Properties *)

(** ** Strings *)

Lemma lower_char_idempotent (c : ascii) : lower_char (lower_char c) = lower_char c.
Proof.
  destruct c as [[] [] [] [] [] [] [] []]; reflexivity.
Qed.

Lemma lower_idempotent (s : string) : lower (lower s) = lower s.
Proof.
  induction s as [|c s IH]; simpl.
  - reflexivity.
  - now rewrite lower_char_idempotent, IH.
Qed.

(** ** JSON: a written string reads back *)

Lemma parse_escape_char (c : ascii) (tail : string) :
  parse_string_chars (escape_char c ++ tail)
  = push (String c) (parse_string_chars tail).
Proof.
  destruct c as [[] [] [] [] [] [] [] []]; reflexivity.
Qed.

Lemma append_assoc (a b c : string) : (a ++ b) ++ c = a ++ (b ++ c).
Proof.
  induction a as [|x a IH]; simpl; [reflexivity | now rewrite IH].
Qed.

Lemma length_append (a b : string) :
  String.length (a ++ b) = String.length a + String.length b.
Proof.
  induction a as [|x a IH]; simpl; [reflexivity | now rewrite IH].
Qed.

Lemma parse_escape (s tail : string) :
  parse_string_chars (escape s ++ String dquote tail) = Some (s, tail).
Proof.
  induction s as [|c s IH]; cbn [escape].
  - reflexivity.
  - rewrite append_assoc, parse_escape_char, IH. reflexivity.
Qed.

Lemma parse_quote (s tail : string) :
  exists r, quote s ++ tail = String dquote r
            /\ parse_string_chars r = Some (s, tail).
Proof.
  exists (escape s ++ String dquote tail). split.
  - unfold quote, dq. cbn [append]. now rewrite append_assoc.
  - apply parse_escape.
Qed.

(** ** JSON: no parser returns more than it was given *)

Lemma skip_ws_length (s : string) :
  String.length (skip_ws s) <= String.length s.
Proof.
  induction s as [|c s IH]; simpl; [lia|].
  destruct (is_ws c); simpl; lia.
Qed.

Lemma skip_ws_cons (s : string) (c : ascii) (r : string) :
  skip_ws s = String c r -> String.length r < String.length s.
Proof.
  intros H. pose proof (skip_ws_length s) as L. rewrite H in L. simpl in L. lia.
Qed.

Lemma parse_string_chars_length (s str rest : string) :
  parse_string_chars s = Some (str, rest) ->
  String.length rest < String.length s.
Proof.
  remember (String.length s) as n eqn:Hn.
  revert s str rest Hn.
  induction n as [n IH] using lt_wf_ind.
  intros s str rest Hn H. subst n.
  assert (step : forall r f a b,
             String.length r < String.length s ->
             push f (parse_string_chars r) = Some (a, b) ->
             String.length b < String.length s).
  { intros r f a b Lr E.
    destruct (parse_string_chars r) as [[a' b']|] eqn:Er; simpl in E;
      [|discriminate].
    injection E as _ <-.
    specialize (IH _ Lr r a' b' eq_refl Er). lia. }
  destruct s as [|c r]; simpl in H; [discriminate|].
  destruct (c =? dquote)%char.
  { injection H as _ <-. simpl. lia. }
  destruct (c =? backslash)%char.
  - destruct r as [|e r1]; [discriminate|].
    destruct (e =? "u")%char.
    + destruct r1 as [|h1 [|h2 [|h3 [|h4 r2]]]]; try discriminate.
      destruct (hex4 h1 h2 h3 h4) as [hi|]; [|discriminate].
      destruct (is_high_surrogate hi).
      * destruct r2 as [|b [|u [|l1 [|l2 [|l3 [|l4 r3]]]]]]; try discriminate.
        destruct ((b =? backslash)%char && (u =? "u")%char); [|discriminate].
        destruct (hex4 l1 l2 l3 l4) as [lo|]; [|discriminate].
        destruct (is_low_surrogate lo); [|discriminate].
        eapply step; [|exact H]. simpl. lia.
      * destruct (is_low_surrogate hi); [discriminate|].
        eapply step; [|exact H]. simpl. lia.
    + destruct (simple_escape e); [|discriminate].
      eapply step; [|exact H]. simpl. lia.
  - destruct (N_of_ascii c <? 32)%N; [discriminate|].
    eapply step; [|exact H]. simpl. lia.
Qed.

Lemma strip_prefix_length (p s rest : string) :
  strip_prefix p s = Some rest -> String.length rest <= String.length s.
Proof.
  revert s; induction p as [|a p IH]; intros s H; simpl in H.
  - injection H as <-. lia.
  - destruct s as [|b s]; [discriminate|].
    destruct (a =? b)%char; [|discriminate].
    apply IH in H. simpl. lia.
Qed.

Lemma take_digits_length (s : string) :
  String.length (snd (take_digits s)) <= String.length s.
Proof.
  induction s as [|c s IH]; simpl; [lia|].
  destruct (is_digit c); simpl; [|lia].
  destruct (take_digits s) as [ds rest]; simpl in *. lia.
Qed.

Lemma digits1_length (s ds rest : string) :
  digits1 s = Some (ds, rest) -> String.length rest <= String.length s.
Proof.
  unfold digits1. intros H.
  pose proof (take_digits_length s) as L.
  destruct (take_digits s) as [[|d ds'] r]; [discriminate|].
  injection H as _ <-. exact L.
Qed.

Lemma parse_unsigned_length (s lit rest : string) :
  parse_unsigned s = Some (lit, rest) ->
  String.length rest <= String.length s.
Proof.
  unfold parse_unsigned. intros H.
  destruct (parse_int_part s) as [[i r1]|] eqn:Ei; [|discriminate].
  destruct (parse_frac_part r1) as [[f r2]|] eqn:Ef; [|discriminate].
  destruct (parse_exp_part r2) as [[e r3]|] eqn:Ee; [|discriminate].
  injection H as _ <-.
  assert (L1 : String.length r1 <= String.length s).
  { unfold parse_int_part in Ei. destruct s as [|c r]; [discriminate|].
    destruct (c =? "0")%char.
    - injection Ei as _ <-. simpl. lia.
    - destruct (is_digit c); [|discriminate].
      now apply digits1_length in Ei. }
  assert (L2 : String.length r2 <= String.length r1).
  { unfold parse_frac_part in Ef. destruct r1 as [|c r].
    - injection Ef as _ <-. lia.
    - destruct (c =? ".")%char.
      + destruct (digits1 r) as [[ds rest]|] eqn:Ed; [|discriminate].
        injection Ef as _ <-. apply digits1_length in Ed. simpl. lia.
      + injection Ef as _ <-. lia. }
  assert (L3 : String.length r3 <= String.length r2).
  { unfold parse_exp_part in Ee. destruct r2 as [|c r].
    - injection Ee as _ <-. lia.
    - destruct ((c =? "e")%char || (c =? "E")%char).
      + destruct r as [|sg r']; [discriminate|].
        destruct ((sg =? "+")%char || (sg =? "-")%char).
        * destruct (digits1 r') as [[ds rest]|] eqn:Ed; [|discriminate].
          injection Ee as _ <-. apply digits1_length in Ed. simpl. lia.
        * destruct (digits1 (String sg r')) as [[ds rest]|] eqn:Ed;
            [|discriminate].
          injection Ee as _ <-. apply digits1_length in Ed. simpl in *. lia.
      + injection Ee as _ <-. lia. }
  lia.
Qed.

Lemma parse_number_length (s lit rest : string) :
  parse_number s = Some (lit, rest) ->
  String.length rest <= String.length s.
Proof.
  unfold parse_number. intros H. destruct s as [|c r]; [discriminate|].
  destruct (c =? "-")%char.
  - destruct (parse_unsigned r) as [[l r']|] eqn:E; simpl in H; [|discriminate].
    injection H as _ <-. apply parse_unsigned_length in E. simpl. lia.
  - now apply parse_unsigned_length in H.
Qed.

Ltac break_match :=
  match goal with
  | H : context [match ?x with _ => _ end] |- _ => destruct x eqn:?
  | |- context [match ?x with _ => _ end] => destruct x eqn:?
  end.

Ltac length_facts :=
  repeat match goal with
    | H : skip_ws _ = String _ _ |- _ => apply skip_ws_cons in H
    | H : parse_string_chars _ = Some _ |- _ =>
        apply parse_string_chars_length in H
    | H : strip_prefix _ _ = Some _ |- _ => apply strip_prefix_length in H
    | H : parse_number _ = Some _ |- _ => apply parse_number_length in H
    end.

Section StepLengths.

Variable value : string -> parsed json.
Variable members : string -> list (string * json) -> parsed json.
Variable elements : string -> list json -> parsed json.
Hypothesis value_shrinks : shrinks value.
Hypothesis members_shrinks : forall acc, shrinks (fun s => members s acc).
Hypothesis elements_shrinks : forall acc, shrinks (fun s => elements s acc).

Lemma value_step_shrinks : shrinks (value_step members elements).
Proof.
  intros s v r H. unfold value_step in H.
  pose proof (skip_ws_length s) as L.
  repeat break_match; try discriminate;
    try (injection H as <- <-);
    try (apply members_shrinks in H);
    try (apply elements_shrinks in H);
    length_facts; simpl in *; lia.
Qed.

Lemma members_step_shrinks acc : shrinks (fun s => members_step value members s acc).
Proof.
  intros s v r H. unfold members_step in H.
  repeat break_match; try discriminate;
    try (injection H as <- <-);
    try (apply members_shrinks in H);
    match goal with
    | E : value _ = Parsed _ _ |- _ => apply value_shrinks in E
    end;
    length_facts; simpl in *; lia.
Qed.

Lemma elements_step_shrinks acc :
  shrinks (fun s => elements_step value elements s acc).
Proof.
  intros s v r H. unfold elements_step in H.
  repeat break_match; try discriminate;
    try (injection H as <- <-);
    try (apply elements_shrinks in H);
    match goal with
    | E : value _ = Parsed _ _ |- _ => apply value_shrinks in E
    end;
    length_facts; simpl in *; lia.
Qed.

End StepLengths.

Lemma parse_shrinks (n : nat) :
  shrinks (parse_value n)
  /\ (forall acc, shrinks (fun s => parse_members n s acc))
  /\ (forall acc, shrinks (fun s => parse_elements n s acc)).
Proof.
  induction n as [|n (IHv & IHm & IHe)].
  - repeat split; intros; intros s v r H; discriminate.
  - repeat split; intros; cbn [parse_value parse_members parse_elements].
    + now apply value_step_shrinks.
    + now apply members_step_shrinks.
    + now apply elements_step_shrinks.
Qed.

(** ** JSON: the budget of [loads] is never used up *)

Section StepFuel.

Variable n : nat.
Variable value : string -> parsed json.
Variable members : string -> list (string * json) -> parsed json.
Variable elements : string -> list json -> parsed json.
Hypothesis value_shrinks : shrinks value.
Hypothesis value_fuel :
  forall s, 2 * String.length s < n -> value s <> Exhausted.
Hypothesis members_fuel :
  forall s acc, 2 * String.length s < n -> members s acc <> Exhausted.
Hypothesis elements_fuel :
  forall s acc, 2 * String.length s + 1 < n -> elements s acc <> Exhausted.

Lemma value_step_fuel (s : string) :
  2 * String.length s < S n -> value_step members elements s <> Exhausted.
Proof.
  intros L. unfold value_step.
  repeat break_match; try discriminate.
  - apply members_fuel. length_facts. lia.
  - apply elements_fuel. length_facts. lia.
Qed.

Lemma members_step_fuel (s : string) acc :
  2 * String.length s < S n -> members_step value members s acc <> Exhausted.
Proof.
  intros L. unfold members_step.
  repeat break_match; try discriminate.
  - apply members_fuel.
    match goal with
    | E : value _ = Parsed _ _ |- _ => apply value_shrinks in E
    end.
    length_facts. lia.
  - intros _.
    match goal with
    | E : value ?r = Exhausted |- _ => apply (value_fuel r); [|exact E]
    end.
    length_facts. lia.
Qed.

Lemma elements_step_fuel (s : string) acc :
  2 * String.length s + 1 < S n ->
  elements_step value elements s acc <> Exhausted.
Proof.
  intros L. unfold elements_step.
  repeat break_match; try discriminate.
  - apply elements_fuel.
    match goal with
    | E : value _ = Parsed _ _ |- _ => apply value_shrinks in E
    end.
    length_facts. lia.
  - intros _.
    match goal with
    | E : value ?r = Exhausted |- _ => apply (value_fuel r); [lia|exact E]
    end.
Qed.

End StepFuel.

Lemma parse_fuel (n : nat) :
  (forall s, 2 * String.length s < n -> parse_value n s <> Exhausted)
  /\ (forall s acc, 2 * String.length s < n ->
                    parse_members n s acc <> Exhausted)
  /\ (forall s acc, 2 * String.length s + 1 < n ->
                    parse_elements n s acc <> Exhausted).
Proof.
  induction n as [|n (IHv & IHm & IHe)].
  - repeat split; intros; lia.
  - destruct (parse_shrinks n) as (Sv & _ & _).
    repeat split; intros; cbn [parse_value parse_members parse_elements].
    + now apply (value_step_fuel n).
    + now apply (members_step_fuel n).
    + now apply (elements_step_fuel n).
Qed.

Lemma parse_value_fuel (text : string) :
  parse_value (S (2 * String.length text)) text <> Exhausted.
Proof. apply parse_fuel. lia. Qed.

(** ** JSON: a written object reads back *)

Lemma value_step_quote members elements (r : string) :
  value_step members elements (String dquote r)
  = match parse_string_chars r with
    | Some (str, rest) => Parsed (JString str) rest
    | None => Invalid
    end.
Proof. reflexivity. Qed.

Lemma parse_value_quote (n : nat) (str tail : string) :
  parse_value (S n) (quote str ++ tail) = Parsed (JString str) tail.
Proof.
  destruct (parse_quote str tail) as (r & -> & P).
  cbn [parse_value]. now rewrite value_step_quote, P.
Qed.

Lemma parse_value_optional (n : nat) (v : option string) (tail : string) :
  0 < n ->
  parse_value n (dumps_optional v ++ tail) = Parsed (json_of_optional v) tail.
Proof.
  intros L. destruct n as [|n]; [lia|].
  destruct v as [str|]; [apply parse_value_quote | reflexivity].
Qed.

Lemma parse_members_S (n : nat) (s : string) acc :
  parse_members (S n) s acc
  = members_step (parse_value n) (parse_members n) s acc.
Proof. reflexivity. Qed.

Lemma members_step_quote value members (r : string) acc :
  members_step value members (String dquote r) acc
  = match parse_string_chars r with
    | None => Invalid
    | Some (k, r1) =>
        match skip_ws r1 with
        | EmptyString => Invalid
        | String c1 r2 =>
            if (c1 =? ":")%char then
              match value r2 with
              | Invalid => Invalid
              | Exhausted => Exhausted
              | Parsed v r3 =>
                  match skip_ws r3 with
                  | EmptyString => Invalid
                  | String c2 r4 =>
                      if (c2 =? ",")%char
                      then members r4 ((k, v) :: acc)
                      else if (c2 =? "}")%char
                      then Parsed (JObject (rev ((k, v) :: acc))) r4
                      else Invalid
                  end
              end
            else Invalid
        end
    end.
Proof. reflexivity. Qed.

Lemma parse_members_dumps (items : list (string * option string)) :
  items <> [] ->
  forall (n : nat) (acc : list (string * json)) (tail : string),
    length items < n ->
    parse_members n (dumps_items items ++ String "}" tail) acc
    = Parsed (JObject (rev acc ++ json_of_items items)) tail.
Proof.
  induction items as [|[k v] rest IH]; [congruence|].
  intros _ n acc tail L. destruct n as [|n]; [simpl in L; lia|].
  cbn [dumps_items]. rewrite !append_assoc.
  destruct (parse_quote k (":" ++ dumps_optional v
              ++ match rest with [] => "" | _ :: _ => "," ++ dumps_items rest end
              ++ String "}" tail)) as (r & -> & P).
  rewrite parse_members_S, members_step_quote, P.
  cbn [append skip_ws]. change (is_ws ":") with false. cbv iota.
  change (":" =? ":")%char with true. cbv iota.
  rewrite parse_value_optional by (simpl in L; lia).
  destruct rest as [|kv rest'].
  - cbn [append skip_ws]. change (is_ws "}") with false. cbv iota.
    change ("}" =? ",")%char with false. change ("}" =? "}")%char with true.
    cbv iota. reflexivity.
  - cbn [append skip_ws]. change (is_ws ",") with false. cbv iota.
    change ("," =? ",")%char with true. cbv iota.
    rewrite IH; [|discriminate|simpl in *; lia].
    cbn [json_of_items map fst snd rev]. rewrite <- app_assoc. reflexivity.
Qed.

Lemma dumps_items_head (items : list (string * option string)) :
  items <> [] -> exists r, dumps_items items = String dquote r.
Proof.
  destruct items as [|[k v] rest]; [congruence|]. intros _.
  cbn [dumps_items]. unfold quote, dq. cbn [append]. eauto.
Qed.

Lemma dumps_items_length (items : list (string * option string)) :
  length items <= String.length (dumps_items items).
Proof.
  induction items as [|[k v] rest IH]; [simpl; lia|].
  cbn [dumps_items length]. unfold quote, dq. cbn [append String.length].
  destruct rest as [|kv rest'].
  - simpl. lia.
  - rewrite !length_append. cbn [append String.length].
    rewrite !length_append.
    set (a := length (kv :: rest')) in *.
    set (b := dumps_items (kv :: rest')) in *.
    cbn [String.length]. lia.
Qed.

Lemma value_step_object members elements (d tail : string) :
  (exists r, d = String dquote r) ->
  value_step members elements (String "{" (d ++ tail)) = members (d ++ tail) [].
Proof. intros [r ->]. reflexivity. Qed.

Lemma loads_dumps_object (items : list (string * option string)) :
  items <> [] ->
  loads (dumps_object items) = Some (JObject (json_of_items items)).
Proof.
  intros NE. unfold loads, dumps_object.
  change ("{" ++ dumps_items items ++ "}")
    with (String "{" (dumps_items items ++ String "}" "")).
  cbn [parse_value].
  rewrite value_step_object by now apply dumps_items_head.
  rewrite parse_members_dumps; [reflexivity | exact NE |].
  pose proof (dumps_items_length items).
  cbn [String.length]. rewrite length_append. lia.
Qed.

(** ** The reply model *)

Lemma model_validate_dump (b : bool) (r : ResponseSchema.t) :
  ResponseSchema.model_validate_json (Some (ResponseSchema.model_dump_json b r))
  = inr r.
Proof.
  unfold ResponseSchema.model_validate_json, ResponseSchema.model_dump_json.
  rewrite loads_dumps_object by discriminate.
  destruct r as [ty [m|] [c|] [ch|] [re|]], b; reflexivity.
Qed.

(** ** Running [transform_html] *)

Lemma after_after (s : state) (a b : list event) :
  after (after s a) b = after s (a ++ b).
Proof. unfold after. simpl. now rewrite app_assoc. Qed.

Lemma credential_after (s : state) (es : list event) :
  credential (after s es) = credential s.
Proof. reflexivity. Qed.

Lemma requests_app (p q : list event) :
  requests (p ++ q) = (requests p ++ requests q)%list.
Proof.
  induction p as [|e p IH]; simpl; [reflexivity|].
  destruct e; simpl; now rewrite ?IH.
Qed.

Lemma clients_app (p q : list event) :
  clients (p ++ q) = (clients p ++ clients q)%list.
Proof.
  induction p as [|e p IH]; simpl; [reflexivity|].
  destruct e; simpl; now rewrite ?IH.
Qed.

Section Runs.

Variable service : genai.service.

Lemma transform_html_no_key (output_format template : string) (s : state) :
  truthy_opt (credential s) = false ->
  transform_html service output_format template s
  = (Returned None, after s [key_notice]).
Proof.
  intros H. unfold transform_html, bind, st.session_state_get.
  fold (credential s). rewrite H. reflexivity.
Qed.

Lemma transform_html_key (output_format template : string) (s : state) :
  truthy_opt (credential s) = true ->
  transform_html service output_format template s
  = let request := request_of output_format template in
    let called := after s [Client (credential s); GenerateContent request] in
    match service request with
    | genai.Raises e => (Raised e, called)
    | genai.Response text =>
        match ResponseSchema.model_validate_json text with
        | inr r => (Returned (Some r), called)
        | inl errors =>
            (Returned None,
             after s [Client (credential s); GenerateContent request;
                      validation_notice errors])
        end
    end.
Proof.
  intros H. unfold transform_html, bind, st.session_state_get.
  fold (credential s). rewrite H. cbn [negb].
  unfold genai.Client, genai.generate_content, bind, emit, try_except.
  cbv zeta.
  repeat match goal with
    | |- context [GenerateContent ?r] =>
        progress change r with (request_of output_format template)
    | |- context [service ?r] =>
        progress change r with (request_of output_format template)
    end.
  cbn [session_state page fst snd].
  destruct (service (request_of output_format template)) as [e|text].
  - unfold raise, after. now rewrite <- app_assoc.
  - unfold ret at 1. unfold of_validation.
    destruct (ResponseSchema.model_validate_json text) as [errors|r].
    + unfold raise, st.error, emit, ret, after. cbn [session_state page].
      now rewrite <- !app_assoc.
    + unfold ret, after. now rewrite <- app_assoc.
Qed.

Lemma display_run (output_format : string) (t : option ResponseSchema.t)
    (s : state) :
  display output_format t s = (Returned tt, after s (drawn output_format t)).
Proof.
  destruct t as [r|]; [|reflexivity].
  unfold display, drawn, notes.
  destruct (ResponseSchema.type r =? "code")%string; [|reflexivity].
  unfold bind, st.success, st.code, st.info, st.warning, emit, ret, after.
  cbn [session_state page].
  destruct (ResponseSchema.changes r) as [c|];
    destruct (ResponseSchema.recommendations r) as [d|];
    try destruct (truthy c); try destruct (truthy d);
    cbn [session_state page app]; rewrite <- ?app_assoc; cbn [app];
    rewrite ?app_nil_r; reflexivity.
Qed.


Lemma transform_and_display_key (output_format html : string) (s : state) :
  truthy_opt (credential s) = true ->
  transform_and_display service output_format html s
  = let request := request_of (lower output_format) html in
    let called := [Client (credential s); GenerateContent request] in
    match service request with
    | genai.Raises e => (Raised e, after s called)
    | genai.Response text =>
        match ResponseSchema.model_validate_json text with
        | inr r =>
            (Returned tt, after s (called ++ drawn output_format (Some r)))
        | inl errors =>
            (Returned tt,
             after s (called ++ [validation_notice errors; failure_notice]))
        end
    end.
Proof.
  intros H. unfold transform_and_display, bind.
  rewrite transform_html_key by exact H. cbv zeta.
  destruct (service (request_of (lower output_format) html)) as [e|text].
  - reflexivity.
  - destruct (ResponseSchema.model_validate_json text) as [errors|r];
      rewrite display_run, after_after; reflexivity.
Qed.

(** ** Running the page *)

(** The page lowers the format before the call and [transform_html]
    lowers it again. *)
Lemma request_of_lower (output_format template : string) :
  request_of (lower output_format) template = request_of output_format template.
Proof. unfold request_of. now rewrite lower_idempotent. Qed.

Lemma get_assign {V} (d : dict V) (name : string) (v : V) :
  get (st.assign d name v) name = Some v.
Proof.
  induction d as [|[k x] d IH]; simpl.
  - now rewrite String.eqb_refl.
  - destruct (k =? name)%string eqn:E; simpl; rewrite E; [reflexivity|exact IH].
Qed.

Lemma sidebar_run (w : widgets) (ss : dict (option string)) :
  sidebar w (fresh ss) = (Returned tt, ready w ss).
Proof.
  unfold sidebar, ready, stored.
  destruct (truthy (gemini_api_key w)); reflexivity.
Qed.

Lemma credential_ready (w : widgets) (ss : dict (option string)) :
  credential (ready w ss) = stored w.
Proof.
  unfold credential, ready. cbn [session_state]. now rewrite get_assign.
Qed.

Lemma Weave_idle (w : widgets) (ss : dict (option string)) :
  Transform w = false ->
  Weave service w (fresh ss) = (Returned tt, ready w ss).
Proof.
  intros H. unfold Weave, bind. rewrite sidebar_run, H. reflexivity.
Qed.

Lemma Weave_no_template (w : widgets) (ss : dict (option string)) :
  Transform w = true ->
  truthy (html_to_transform w) = false ->
  Weave service w (fresh ss)
  = (Returned tt,
     after (ready w ss)
       [Error (Plain "Please enter some HTML code to transform.")]).
Proof.
  intros H T. unfold Weave, bind. rewrite sidebar_run, H.
  unfold on_Transform. rewrite T. reflexivity.
Qed.

Lemma Weave_no_format (w : widgets) (ss : dict (option string)) :
  Transform w = true ->
  truthy (html_to_transform w) = true ->
  truthy_opt (output_format w) = false ->
  Weave service w (fresh ss)
  = (Returned tt,
     after (ready w ss) [Error (Plain "Please select an output format.")]).
Proof.
  intros H T F. unfold Weave, bind. rewrite sidebar_run, H.
  unfold on_Transform. rewrite T. cbn [negb].
  destruct (output_format w) as [fmt|]; [|reflexivity].
  simpl in F. rewrite F. reflexivity.
Qed.

Lemma Weave_no_key (w : widgets) (ss : dict (option string)) (fmt : string) :
  Transform w = true ->
  truthy (html_to_transform w) = true ->
  output_format w = Some fmt -> truthy fmt = true ->
  truthy (gemini_api_key w) = false ->
  Weave service w (fresh ss) = (Returned tt, after (ready w ss) [key_notice]).
Proof.
  intros H T F Ft K. unfold Weave, bind. rewrite sidebar_run, H.
  unfold on_Transform. rewrite T, F, Ft. cbn [negb].
  unfold bind, st.session_state_attr, ready at 1. cbn [session_state].
  rewrite get_assign. unfold stored. rewrite K. reflexivity.
Qed.

Lemma Weave_transform (w : widgets) (ss : dict (option string)) (fmt : string) :
  Transform w = true ->
  truthy (html_to_transform w) = true ->
  output_format w = Some fmt -> truthy fmt = true ->
  truthy (gemini_api_key w) = true ->
  Weave service w (fresh ss)
  = let request := request_of fmt (html_to_transform w) in
    let called :=
      [SpinnerOn "Transforming..."; Client (Some (gemini_api_key w));
       GenerateContent request] in
    match service request with
    | genai.Raises e => (Raised e, after (ready w ss) (called ++ [SpinnerOff]))
    | genai.Response text =>
        match ResponseSchema.model_validate_json text with
        | inr r =>
            (Returned tt,
             after (ready w ss) (called ++ drawn fmt (Some r) ++ [SpinnerOff]))
        | inl errors =>
            (Returned tt,
             after (ready w ss)
               (called ++ [validation_notice errors; failure_notice; SpinnerOff]))
        end
    end.
Proof.
  intros H T F Ft K. unfold Weave, bind. rewrite sidebar_run, H.
  unfold on_Transform. rewrite T, F, Ft. cbn [negb].
  unfold bind, st.session_state_attr, ready at 1. cbn [session_state].
  rewrite get_assign. unfold stored at 1. rewrite K.
  fold (ready w ss).
  unfold st.spinner, with_, bind, emit.
  change {| session_state := session_state (ready w ss);
            page := (page (ready w ss) ++ [SpinnerOn "Transforming..."])%list |}
    with (after (ready w ss) [SpinnerOn "Transforming..."]).
  assert (C : credential (after (ready w ss) [SpinnerOn "Transforming..."])
              = Some (gemini_api_key w)).
  { rewrite credential_after, credential_ready. unfold stored. now rewrite K. }
  rewrite transform_and_display_key by (rewrite C; exact K).
  rewrite C. cbv zeta.
  rewrite request_of_lower.
  destruct (service (request_of fmt (html_to_transform w))) as [e|text].
  - unfold after. cbn [session_state page app]. reflexivity.
  - destruct (ResponseSchema.model_validate_json text) as [errors|r].
    + unfold after. cbn [session_state page app]. reflexivity.
    + unfold after. cbn [session_state page].
      rewrite <- !app_assoc. reflexivity.
Qed.

Lemma requests_drawn (output_format : string) (t : option ResponseSchema.t) :
  requests (drawn output_format t) = [] /\ clients (drawn output_format t) = [].
Proof.
  destruct t as [r|]; [|split; reflexivity].
  unfold drawn, notes.
  destruct (ResponseSchema.type r =? "code")%string; [|split; reflexivity].
  destruct (ResponseSchema.changes r) as [c|];
    destruct (ResponseSchema.recommendations r) as [d|];
    try destruct (truthy c); try destruct (truthy d); split; reflexivity.
Qed.

Lemma Weave_requests (w : widgets) (ss : dict (option string)) :
  requests (page (snd (Weave service w (fresh ss)))) = sent w
  /\ clients (page (snd (Weave service w (fresh ss))))
     = map (fun _ => Some (gemini_api_key w)) (sent w).
Proof.
  unfold sent.
  destruct (Transform w) eqn:H.
  2:{ rewrite Weave_idle by exact H. destruct (output_format w); now split. }
  destruct (truthy (html_to_transform w)) eqn:T.
  2:{ rewrite Weave_no_template by assumption.
      destruct (output_format w); now split. }
  destruct (output_format w) as [fmt|] eqn:F.
  2:{ rewrite Weave_no_format by (try assumption; now rewrite F). now split. }
  destruct (truthy fmt) eqn:Ft.
  2:{ rewrite Weave_no_format by (try assumption; now rewrite F). now split. }
  destruct (truthy (gemini_api_key w)) eqn:K.
  2:{ rewrite (Weave_no_key w ss fmt) by assumption. now split. }
  rewrite (Weave_transform w ss fmt) by assumption. cbv zeta.
  cbn [andb map].
  destruct (service (request_of fmt (html_to_transform w))) as [e|text].
  - now split.
  - destruct (ResponseSchema.model_validate_json text) as [errors|r].
    + now split.
    + destruct (requests_drawn fmt (Some r)) as [R C].
      cbn [snd after page ready app requests clients].
      rewrite requests_app, clients_app, R, C. now split.
Qed.

End Runs.

(** ** JSON: every layout of an object reads back *)

Lemma skip_ws_blank (ws : list space) (s : string) :
  skip_ws (blank ws ++ s) = skip_ws s.
Proof.
  induction ws as [|w ws IH]; [reflexivity|].
  destruct w; exact IH.
Qed.

Lemma hex_value_digit (c : ascii) : assoc c hex_digits = hex_digit c.
Proof. destruct c as [[] [] [] [] [] [] [] []]; reflexivity. Qed.

Lemma short_escape_value (e : ascii) : assoc e short_escapes = simple_escape e.
Proof. destruct e as [[] [] [] [] [] [] [] []]; reflexivity. Qed.

Lemma code_unit_hex4 (h1 h2 h3 h4 : ascii) :
  code_unit h1 h2 h3 h4 = hex4 h1 h2 h3 h4.
Proof.
  unfold code_unit, hex4. rewrite !hex_value_digit.
  destruct (hex_digit h1), (hex_digit h2), (hex_digit h3), (hex_digit h4);
    try reflexivity.
  f_equal. lia.
Qed.

Lemma utf8_cons_utf8 (cp : N) (s : string) : utf8_cons cp s = utf8 cp ++ s.
Proof.
  unfold utf8_cons, utf8, byte.
  destruct (cp <? 128)%N; [reflexivity|].
  destruct (cp <? 2048)%N; [reflexivity|].
  destruct (cp <? 65536)%N; reflexivity.
Qed.

Lemma push_ext (f g : string -> string) (o : option (string * string)) :
  (forall s, f s = g s) -> push f o = push g o.
Proof. intros H. destruct o as [[a b]|]; simpl; [now rewrite H|reflexivity]. Qed.

Lemma glyph_reads (g : glyph) (v tail : string) :
  glyph_value g = Some v ->
  parse_string_chars (glyph_text g ++ tail)
  = push (append v) (parse_string_chars tail).
Proof.
  destruct g as [c|e|h1 h2 h3 h4|h1 h2 h3 h4 l1 l2 l3 l4];
    cbn [glyph_value glyph_text].
  - destruct (32 <=? N_of_ascii c)%N eqn:L; [|discriminate].
    destruct (c =? dquote)%char eqn:Q; [discriminate|].
    destruct (c =? backslash)%char eqn:B; [discriminate|].
    intros [= <-]. cbn [append parse_string_chars]. rewrite Q, B.
    apply N.leb_le in L.
    destruct (N.ltb_spec (N_of_ascii c) 32); [lia|].
    apply push_ext. reflexivity.
  - rewrite short_escape_value.
    destruct (simple_escape e) as [ch|] eqn:E; [|discriminate].
    intros [= <-]. cbn [append parse_string_chars].
    change (backslash =? dquote)%char with false.
    change (backslash =? backslash)%char with true. cbv iota.
    destruct (e =? "u")%char eqn:U.
    { apply Ascii.eqb_eq in U. subst e. discriminate E. }
    rewrite E. apply push_ext. reflexivity.
  - rewrite code_unit_hex4.
    destruct (hex4 h1 h2 h3 h4) as [cp|] eqn:E; [|discriminate].
    destruct ((cp <? 55296)%N || (57343 <? cp)%N) eqn:R; [|discriminate].
    intros [= <-]. cbn [append parse_string_chars].
    change (backslash =? dquote)%char with false.
    change (backslash =? backslash)%char with true.
    change ("u" =? "u")%char with true. cbv iota.
    rewrite E.
    assert (H : is_high_surrogate cp = false /\ is_low_surrogate cp = false).
    { unfold is_high_surrogate, is_low_surrogate.
      apply orb_true_iff in R. rewrite N.ltb_lt, N.ltb_lt in R.
      split; apply andb_false_iff; rewrite !N.leb_gt; lia. }
    destruct H as [-> ->].
    apply push_ext. intros s. apply utf8_cons_utf8.
  - rewrite !code_unit_hex4.
    destruct (hex4 h1 h2 h3 h4) as [hi|] eqn:E; [|discriminate].
    destruct (hex4 l1 l2 l3 l4) as [lo|] eqn:E'; [|discriminate].
    destruct ((55296 <=? hi)%N && (hi <=? 56319)%N
              && (56320 <=? lo)%N && (lo <=? 57343)%N) eqn:R; [|discriminate].
    intros [= <-]. cbn [append parse_string_chars].
    change (backslash =? dquote)%char with false.
    change (backslash =? backslash)%char with true.
    change ("u" =? "u")%char with true. cbv iota.
    rewrite E, E'. cbn [andb].
    apply andb_true_iff in R as [R R4]. apply andb_true_iff in R as [R R3].
    apply andb_true_iff in R as [R1 R2].
    unfold is_high_surrogate, is_low_surrogate. rewrite R1, R2, R3, R4.
    cbn [andb]. unfold join_surrogates.
    apply push_ext. intros s. apply utf8_cons_utf8.
Qed.

Lemma glyphs_read (gs : list glyph) (v tail : string) :
  glyphs_value gs = Some v ->
  parse_string_chars (glyphs_text gs ++ String dquote tail) = Some (v, tail).
Proof.
  revert v. induction gs as [|g gs IH]; intros v; cbn [glyphs_value glyphs_text].
  - intros [= <-]. reflexivity.
  - destruct (glyph_value g) as [a|] eqn:G; [|discriminate].
    destruct (glyphs_value gs) as [b|]; [|discriminate].
    intros [= <-]. rewrite append_assoc, (glyph_reads g a _ G), (IH b eq_refl).
    reflexivity.
Qed.

Lemma literal_head (gs : list glyph) (tail : string) :
  literal_text gs ++ tail
  = String dquote (glyphs_text gs ++ String dquote tail).
Proof.
  unfold literal_text, dq. cbn [append]. now rewrite append_assoc.
Qed.

Lemma value_step_blank members elements (ws : list space) (s : string) :
  value_step members elements (blank ws ++ s) = value_step members elements s.
Proof. unfold value_step. now rewrite skip_ws_blank. Qed.

Lemma members_step_blank value members (ws : list space) (s : string) acc :
  members_step value members (blank ws ++ s) acc
  = members_step value members s acc.
Proof. unfold members_step. now rewrite skip_ws_blank. Qed.

Lemma parse_value_content (n : nat) (ws : list space)
    (c : option (list glyph)) (v : option string) (tail : string) :
  0 < n ->
  match c with
  | Some gs => option_map Some (glyphs_value gs)
  | None => Some None
  end = Some v ->
  parse_value n (blank ws ++ value_text c ++ tail)
  = Parsed (json_of_optional v) tail.
Proof.
  intros L V. destruct n as [|n]; [lia|].
  cbn [parse_value]. rewrite value_step_blank.
  destruct c as [gs|]; cbn [value_text].
  - destruct (glyphs_value gs) as [str|] eqn:G; [|discriminate].
    injection V as <-.
    rewrite literal_head, value_step_quote, (glyphs_read gs str tail G).
    reflexivity.
  - injection V as <-. reflexivity.
Qed.

Lemma append_empty (s : string) : s ++ "" = s.
Proof. induction s as [|c s IH]; simpl; [reflexivity | now rewrite IH]. Qed.

Lemma skip_ws_colon (ws : list space) (s : string) :
  skip_ws (blank ws ++ String ":" s) = String ":" s.
Proof. now rewrite skip_ws_blank. Qed.

Lemma member_value_parts (m : member_layout) (k : string) (v : option string) :
  member_value m = Some (k, v) ->
  glyphs_value (key m) = Some k
  /\ match content m with
     | Some gs => option_map Some (glyphs_value gs)
     | None => Some None
     end = Some v.
Proof.
  unfold member_value.
  destruct (glyphs_value (key m)) as [k'|]; [|discriminate].
  destruct (content m) as [gs|].
  - destruct (glyphs_value gs) as [x|]; [|discriminate].
    intros [= <- <-]. now split.
  - intros [= <- <-]. now split.
Qed.

Lemma parse_members_layout (ms : list member_layout) :
  ms <> [] ->
  forall (items : list (string * option string)) (n : nat)
         (acc : list (string * json)) (tail : string),
    members_value ms = Some items ->
    length ms < n ->
    parse_members n (members_text ms ++ String "}" tail) acc
    = Parsed (JObject (rev acc ++ json_of_items items)) tail.
Proof.
  induction ms as [|m rest IH]; [congruence|].
  intros _ items n acc tail V L. destruct n as [|n]; [simpl in L; lia|].
  cbn [members_value] in V.
  destruct (member_value m) as [[k v]|] eqn:M; [|discriminate].
  destruct (members_value rest) as [kvs|] eqn:R; [|discriminate].
  injection V as <-.
  apply member_value_parts in M as [K C].
  cbn [members_text]. unfold member_text. rewrite !append_assoc.
  rewrite parse_members_S, members_step_blank, literal_head,
    members_step_quote, (glyphs_read _ k _ K).
  cbn [append]. rewrite skip_ws_colon.
  change (":" =? ":")%char with true. cbv iota.
  rewrite (parse_value_content n _ _ v) by (simpl in L; lia || exact C).
  destruct rest as [|m' rest'].
  - injection R as <-.
    cbn [append]. rewrite skip_ws_blank. cbn [skip_ws].
    change (is_ws "}") with false. cbv iota.
    change ("}" =? ",")%char with false. change ("}" =? "}")%char with true.
    cbv iota. reflexivity.
  - cbn [append]. rewrite skip_ws_blank. cbn [skip_ws].
    change (is_ws ",") with false. cbv iota.
    change ("," =? ",")%char with true. cbv iota.
    rewrite (IH ltac:(discriminate) kvs); [|reflexivity|simpl in *; lia].
    cbn [json_of_items map fst snd rev]. rewrite <- app_assoc. reflexivity.
Qed.

Lemma members_text_head (ms : list member_layout) (tail : string) :
  ms <> [] ->
  exists r, skip_ws (members_text ms ++ tail) = String dquote r.
Proof.
  destruct ms as [|m rest]; [congruence|]. intros _.
  cbn [members_text]. unfold member_text. rewrite !append_assoc.
  rewrite skip_ws_blank, literal_head. cbn [skip_ws].
  change (is_ws dquote) with false. cbv iota. eauto.
Qed.

Lemma members_text_length (ms : list member_layout) :
  length ms <= String.length (members_text ms).
Proof.
  induction ms as [|m rest IH]; [simpl; lia|].
  cbn [members_text length]. unfold member_text, literal_text, dq.
  rewrite !length_append. cbn [append String.length].
  destruct rest as [|m' rest'].
  - simpl. lia.
  - set (a := length (m' :: rest')) in *.
    set (b := members_text (m' :: rest')) in *.
    cbn [append String.length]. lia.
Qed.

Lemma loads_object_text (o : object_layout)
    (items : list (string * option string)) :
  members o <> [] ->
  object_value o = Some items ->
  loads (object_text o) = Some (JObject (json_of_items items)).
Proof.
  intros NE V. unfold loads, object_text, object_value in *.
  set (text := blank (before o) ++ "{" ++ members_text (members o) ++ "}"
               ++ blank (behind o)).
  assert (E : parse_value (S (2 * String.length text)) text
              = Parsed (JObject (json_of_items items)) (blank (behind o))).
  { assert (F : length (members o) < 2 * String.length text).
    { pose proof (members_text_length (members o)).
      unfold text. rewrite !length_append. cbn [String.length]. lia. }
    revert F. generalize (2 * String.length text). intros n F.
    cbn [parse_value]. unfold text. rewrite value_step_blank.
    change ("{" ++ members_text (members o) ++ "}" ++ blank (behind o))
      with (String "{" (members_text (members o)
                        ++ String "}" (blank (behind o)))).
    destruct (members_text_head (members o) (String "}" (blank (behind o))) NE)
      as [r Hr].
    unfold value_step. cbn [skip_ws]. change (is_ws "{") with false.
    cbv iota. change ("{" =? "{")%char with true. cbv iota. rewrite Hr.
    change (dquote =? "}")%char with false. cbv iota.
    now rewrite (parse_members_layout _ NE items). }
  rewrite E, <- (append_empty (blank (behind o))), skip_ws_blank.
  reflexivity.
Qed.

(** *** From the members to the reply *)

Lemma member_in_members (k : string) (ms : list (string * json)) (v : json) :
  member k ms = Some v -> In (k, v) ms.
Proof.
  induction ms as [|[k' x] ms IH]; simpl; [discriminate|].
  destruct (member k ms) as [v'|].
  - intros [= ->]. auto.
  - destruct (String.eqb_spec k' k) as [->|_]; [|discriminate].
    intros [= ->]. auto.
Qed.

Lemma member_none (k : string) (ms : list (string * json)) :
  member k ms = None <-> ~ In k (map fst ms).
Proof.
  induction ms as [|[k' x] ms IH]; simpl; [tauto|].
  destruct (member k ms) as [v'|].
  - split; [discriminate|]. intros N. exfalso. apply N. right.
    destruct (in_dec string_dec k (map fst ms)) as [I|NI]; [exact I|].
    apply IH in NI. discriminate.
  - destruct (String.eqb_spec k' k) as [->|D].
    + split; [discriminate|]. intros N. exfalso. auto.
    + split; [|reflexivity]. intros _ [E|I]; [auto|]. now apply IH.
Qed.

Lemma member_unique (k : string) (ms : list (string * json)) (v : json) :
  NoDup (map fst ms) -> In (k, v) ms -> member k ms = Some v.
Proof.
  induction ms as [|[k' x] ms IH]; simpl; [contradiction|].
  intros N [E|I]; inversion N as [|? ? NI N']; subst.
  - injection E as -> ->.
    apply member_none in NI. rewrite NI. now rewrite String.eqb_refl.
  - now rewrite (IH N' I).
Qed.

Lemma get_in {V} (d : dict V) (k : string) (v : V) :
  get d k = Some v -> In (k, v) d.
Proof.
  induction d as [|[k' x] d IH]; simpl; [discriminate|].
  destruct (String.eqb_spec k' k) as [->|_]; [intros [= ->]|]; auto.
Qed.

Lemma get_none {V} (d : dict V) (k : string) :
  get d k = None -> ~ In k (map fst d).
Proof.
  induction d as [|[k' x] d IH]; simpl; [tauto|].
  destruct (String.eqb_spec k' k) as [->|D]; [discriminate|].
  intros E [F|I]; [congruence|]. now apply IH.
Qed.

Lemma keys_of_items (items : list (string * option string)) :
  map fst (json_of_items items) = map fst items.
Proof. unfold json_of_items. rewrite map_map. reflexivity. Qed.

Lemma member_of_items (items : list (string * option string)) (k : string) :
  NoDup (map fst items) ->
  member k (json_of_items items)
  = option_map json_of_optional (get items k).
Proof.
  intros N. destruct (get items k) as [v|] eqn:G; cbn [option_map].
  - apply member_unique; [now rewrite keys_of_items|].
    apply get_in in G. unfold json_of_items.
    change (k, json_of_optional v)
      with ((fun kv : string * option string =>
               (fst kv, json_of_optional (snd kv))) (k, v)).
    now apply in_map.
  - apply member_none. rewrite keys_of_items. now apply get_none.
Qed.

Lemma model_validate_items (items : list (string * option string))
    (r : ResponseSchema.t) :
  NoDup (map fst items) ->
  reply_of_items items = Some r ->
  ResponseSchema.model_validate (JObject (json_of_items items)) = inr r.
Proof.
  intros N R. unfold ResponseSchema.model_validate, str_field,
    optional_str_field.
  rewrite !(member_of_items items _ N).
  unfold reply_of_items, optional_item in R.
  destruct (get items "type") as [[ty|]|]; try discriminate.
  injection R as <-.
  destruct (get items "message") as [[?|]|],
    (get items "code") as [[?|]|],
    (get items "changes") as [[?|]|],
    (get items "recommendations") as [[?|]|]; reflexivity.
Qed.

(** Every layout of a reply object validates to that object. *)
Lemma model_validate_layout (o : object_layout)
    (items : list (string * option string)) (r : ResponseSchema.t) :
  object_value o = Some items ->
  NoDup (map fst items) ->
  reply_of_items items = Some r ->
  ResponseSchema.model_validate_json (Some (object_text o)) = inr r.
Proof.
  intros V N R. unfold ResponseSchema.model_validate_json.
  rewrite (loads_object_text o items); [now apply model_validate_items| |exact V].
  intros E. unfold object_value in V. rewrite E in V. injection V as <-.
  discriminate R.
Qed.

(** * The claims *)

(** The pills of the page are these formats, capitalised. *)
Lemma formats_of_pills : map lower (keys output_lang_map) = formats.
Proof. reflexivity. Qed.


Lemma truthy_nonempty (s : string) : s <> "" -> truthy s = true.
Proof. destruct s; [congruence | reflexivity]. Qed.

(** *** C1 *)



(** *** C2 *)

Lemma member_in (k : string) (ms : list (string * json)) (v : json) :
  member k ms = Some v ->
  In v (map snd (filter (fun kv => (fst kv =? k)%string) ms)).
Proof.
  induction ms as [|[k' x] ms IH]; simpl; [discriminate|].
  destruct (member k ms) as [v'|].
  - intros E. destruct (k' =? k)%string; simpl; auto.
  - destruct (k' =? k)%string; [|discriminate].
    intros [= ->]. simpl. auto.
Qed.

(** It is not so that every reply whose discriminator is neither [code]
    nor [text] fails validation: [{"type":"image"}] is validated. *)
Lemma foreign_discriminator_accepted :
  ~ (forall text : string,
        ~ In (JString "code") (raw_types text) ->
        ~ In (JString "text") (raw_types text) ->
        exists errors,
          ResponseSchema.model_validate_json (Some text) = inl errors).
Proof.
  intros H.
  destruct (H (jq "{'type':'image'}")) as [errors E].
  - vm_compute. intros [E|[]]. discriminate E.
  - vm_compute. intros [E|[]]. discriminate E.
  - vm_compute in E. discriminate.
Qed.

(** What is rejected: a raw reply in which no [type] member is a string
    (there is none, or the text is not a JSON object at all, or it holds
    values of another kind) fails validation, and [transform_html] reports
    the error and returns [None]. *)
Lemma missing_discriminator_rejected (service : genai.service)
    (output_format template text : string) (s : state) :
  truthy_opt (credential s) = true ->
  (forall request, service request = genai.Response (Some text)) ->
  (forall str, ~ In (JString str) (raw_types text)) ->
  exists errors,
    ResponseSchema.model_validate_json (Some text) = inl errors
    /\ transform_html service output_format template s
       = (Returned None,
          after s [ Client (credential s);
                    GenerateContent (request_of output_format template);
                    validation_notice errors ]).
Proof.
  intros K S R.
  assert (V : exists errors,
             ResponseSchema.model_validate_json (Some text) = inl errors).
  { unfold ResponseSchema.model_validate_json. unfold raw_types in R.
    destruct (loads text) as [j|]; [|eauto].
    destruct j as [| | | | |ms]; cbn [ResponseSchema.model_validate]; eauto.
    unfold str_field.
    destruct (member "type" ms) as [v|] eqn:E.
    - destruct v; try (destruct (optional_str_field "message" ms),
                         (optional_str_field "code" ms),
                         (optional_str_field "changes" ms),
                         (optional_str_field "recommendations" ms); eauto; fail).
      exfalso. eapply R. apply member_in. exact E.
    - destruct (optional_str_field "message" ms),
        (optional_str_field "code" ms),
        (optional_str_field "changes" ms),
        (optional_str_field "recommendations" ms); eauto. }
  destruct V as [errors V]. exists errors. split; [exact V|].
  rewrite transform_html_key by exact K. cbv zeta.
  rewrite S, V. reflexivity.
Qed.

Lemma missing_discriminator_rejected_witness :
  exists errors,
    ResponseSchema.model_validate_json (Some (jq "{'code':'<div/>'}"))
    = inl errors
    /\ transform_html (always (jq "{'code':'<div/>'}")) "html" "<p>" with_key
       = (Returned None,
          after with_key [ Client (credential with_key);
                           GenerateContent (request_of "html" "<p>");
                           validation_notice errors ]).
Proof.
  apply (missing_discriminator_rejected
           (always (jq "{'code':'<div/>'}")) "html" "<p>"
           (jq "{'code':'<div/>'}") with_key).
  - reflexivity.
  - reflexivity.
  - intros str. vm_compute. intros [].
Defined.

(** C2. The code at the reply [{"type":"image"}]: the field description of
    [ResponseSchema] and the enum of the shape sent with the request name
    [code] and [text] as the only discriminators, yet validation accepts
    the reply, [transform_html] returns it with every other field unset,
    and the page draws [st.text] of its absent message. *)
Theorem image_reply_returned :
  ResponseSchema.model_validate_json (Some (jq "{'type':'image'}"))
  = inr image_reply
  /\ transform_html (always (jq "{'type':'image'}")) "html" "<p>" with_key
     = (Returned (Some image_reply),
        after with_key [ Client (Some "key");
                         GenerateContent (request_of "html" "<p>") ])
  /\ Weave (always (jq "{'type':'image'}")) button_page (fresh [])
     = (Returned tt,
        after (ready button_page [])
          [ SpinnerOn "Transforming..."; Client (Some "key");
            GenerateContent (request_of "HTML" "<button>Click</button>");
            Text None; SpinnerOff ])
  /\ match types.properties (shape (request_of "html" "<p>")) with
     | Some props => option_map types.enum (get props "type")
     | None => None
     end = Some (Some ["code"; "text"])
  /\ ~ In (ResponseSchema.type image_reply) ["code"; "text"].
Proof.
  repeat split; try reflexivity.
  simpl. intuition discriminate.
Qed.

(** *** C3 *)

(** The replies of the scenarios of the specification, read from their
    literal text. *)
Example reply_div :
  ResponseSchema.model_validate_json
    (Some (jq "{'type':'code','code':'<div/>'}"))
  = inr {| ResponseSchema.type := "code"; ResponseSchema.message := None;
           ResponseSchema.code := Some "<div/>";
           ResponseSchema.changes := None;
           ResponseSchema.recommendations := None |}.
Proof. vm_compute. reflexivity. Qed.

Example reply_padded_button :
  ResponseSchema.model_validate_json
    (Some (jq "{'type':'code','code':'<button class=\'px-4 py-2\'>Click</button>','changes':'Added padding'}"))
  = inr padded_button.
Proof. vm_compute. reflexivity. Qed.

Example reply_text :
  ResponseSchema.model_validate_json
    (Some (jq "{'type':'text','message':'Please provide UI markup to transform.'}"))
  = inr {| ResponseSchema.type := "text";
           ResponseSchema.message :=
             Some "Please provide UI markup to transform.";
           ResponseSchema.code := None; ResponseSchema.changes := None;
           ResponseSchema.recommendations := None |}.
Proof. vm_compute. reflexivity. Qed.

(** C3. Round trip: take a reply object whose discriminator is [code] or
    [text], with any of the four optional fields set, and any JSON text of
    it: its members in any order, any white space between the tokens,
    every character of a string written as it is or by any of its escapes,
    an unset field left out or written as null.  The interpreter reads
    that text back to the same discriminator and the same fields, both the
    validator and [transform_html]; the compact text that
    [model_dump_json] writes reads back as well.  (The proof makes no use
    of the discriminator being one of the two values.) *)
Theorem reply_round_trip (o : object_layout)
    (items : list (string * option string)) (r : ResponseSchema.t)
    (exclude_none : bool) (output_format template : string) (s : state) :
  ResponseSchema.type r = "code" \/ ResponseSchema.type r = "text" ->
  object_value o = Some items ->
  NoDup (map fst items) ->
  reply_of_items items = Some r ->
  truthy_opt (credential s) = true ->
  ResponseSchema.model_validate_json (Some (object_text o)) = inr r
  /\ fst (transform_html (always (object_text o)) output_format template s)
     = Returned (Some r)
  /\ ResponseSchema.model_validate_json
       (Some (ResponseSchema.model_dump_json exclude_none r)) = inr r.
Proof.
  intros _ V N R K.
  pose proof (model_validate_layout o items r V N R) as E.
  split; [exact E|]. split; [|apply model_validate_dump].
  rewrite transform_html_key by exact K. cbv zeta.
  unfold always. rewrite E. reflexivity.
Qed.

Lemma reply_round_trip_witness :
  object_text spaced_layout
  = jq " { 'code' : '\u00e9\ud83e\udea1<div\/>\n' ," ++ nl
    ++ jq " 'type':'code','changes':null}" ++ nl
  /\ ResponseSchema.model_validate_json (Some (object_text spaced_layout))
     = inr spaced_reply
  /\ fst (transform_html (always (object_text spaced_layout)) "html"
            "<button>Click</button>" with_key)
     = Returned (Some spaced_reply)
  /\ ResponseSchema.model_validate_json
       (Some (ResponseSchema.model_dump_json true spaced_reply))
     = inr spaced_reply.
Proof.
  split; [reflexivity|].
  apply (reply_round_trip spaced_layout spaced_items spaced_reply true
           "html" "<button>Click</button>" with_key).
  - left. reflexivity.
  - reflexivity.
  - repeat constructor; simpl; intuition discriminate.
  - reflexivity.
  - reflexivity.
Defined.

(** *** C4 *)

(** [transform_html] itself looks at no format: what keeps a foreign
    format from the service is the pills widget and the check of the
    page, not the request builder. *)
Example transform_html_any_format :
  requests
    (page (snd (transform_html (always "{}") "svelte" "<p>" with_key)))
  = [request_of "svelte" "<p>"].
Proof. reflexivity. Qed.




(** *** C5 *)

(** C5. With an empty template, whatever the format and the key, pressing
    the button only draws the notice asking for HTML code: the run ends
    normally, no client is made and no request is built or sent. *)
Theorem empty_template_blocked (service : genai.service) (w : widgets)
    (ss : dict (option string)) :
  Transform w = true ->
  html_to_transform w = "" ->
  Weave service w (fresh ss)
  = (Returned tt,
     after (ready w ss)
       [Error (Plain "Please enter some HTML code to transform.")])
  /\ requests (page (snd (Weave service w (fresh ss)))) = []
  /\ clients (page (snd (Weave service w (fresh ss)))) = [].
Proof.
  intros H T.
  assert (Tr : truthy (html_to_transform w) = false) by now rewrite T.
  split; [now apply Weave_no_template|].
  destruct (Weave_requests service w ss) as [-> ->].
  unfold sent. rewrite H, Tr.
  destruct (output_format w); now split.
Qed.

Lemma empty_template_blocked_witness :
  Weave (always "{}") no_template_page (fresh [])
  = (Returned tt,
     after (ready no_template_page [])
       [Error (Plain "Please enter some HTML code to transform.")])
  /\ requests (page (snd (Weave (always "{}") no_template_page (fresh [])))) = []
  /\ clients (page (snd (Weave (always "{}") no_template_page (fresh [])))) = [].
Proof.
  apply (empty_template_blocked (always "{}") no_template_page []);
    reflexivity.
Defined.

(** *** C6 *)

(** C6. When the reply of the service fails validation, [transform_html]
    returns normally with [None] (no exception leaves it and no reply
    object is produced); what it did is: make the client, send one
    request, draw the validation error.  The request is sent once. *)
Theorem validation_failure_recoverable (service : genai.service)
    (output_format template : string) (s : state) (text : option string)
    (errors : list ErrorDetails) :
  truthy_opt (credential s) = true ->
  service (request_of output_format template) = genai.Response text ->
  ResponseSchema.model_validate_json text = inl errors ->
  transform_html service output_format template s
  = (Returned None,
     after s [ Client (credential s);
               GenerateContent (request_of output_format template);
               validation_notice errors ])
  /\ requests (page (snd (transform_html service output_format template s)))
     = (requests (page s) ++ [request_of output_format template])%list.
Proof.
  intros K S V.
  assert (E : transform_html service output_format template s
              = (Returned None,
                 after s [ Client (credential s);
                           GenerateContent (request_of output_format template);
                           validation_notice errors ])).
  { rewrite transform_html_key by exact K. cbv zeta. now rewrite S, V. }
  split; [exact E|].
  rewrite E. cbn [snd after page]. now rewrite requests_app.
Qed.

Lemma validation_failure_recoverable_witness :
  transform_html (always "not json") "html" "<p>" with_key
  = (Returned None,
     after with_key
       [ Client (credential with_key);
         GenerateContent (request_of "html" "<p>");
         validation_notice [ {| loc := []; kind := json_invalid |} ] ])
  /\ requests (page (snd (transform_html (always "not json") "html" "<p>"
                            with_key)))
     = (requests (page with_key) ++ [request_of "html" "<p>"])%list.
Proof.
  apply (validation_failure_recoverable (always "not json") "html" "<p>"
           with_key (Some "not json")).
  - reflexivity.
  - reflexivity.
  - reflexivity.
Defined.

(** *** C7 *)

(** C7. Every request a run of the page sends declares the reply as an
    object whose only required field is [type], a string out of [code] and
    [text], and whose other fields are exactly the four strings [message],
    [code], [changes] and [recommendations], none of them required. *)
Theorem response_shape (service : genai.service) (w : widgets)
    (ss : dict (option string)) (request : types.Request) :
  In request (requests (page (snd (Weave service w (fresh ss))))) ->
  types.type (shape request) = types.OBJECT
  /\ types.required (shape request) = Some ["type"]
  /\ exists props,
       types.properties (shape request) = Some props
       /\ keys props = ["type"; "message"; "code"; "changes"; "recommendations"]
       /\ get props "type"
          = Some (types.Build_Schema types.STRING None
                    (Some ["code"; "text"]) None)
       /\ map (get props) ["message"; "code"; "changes"; "recommendations"]
          = repeat (Some (types.Build_Schema types.STRING None None None)) 4.
Proof.
  intros H. destruct (Weave_requests service w ss) as [E _].
  rewrite E in H. unfold sent in H.
  assert (C : types.config request = generate_content_config).
  { destruct (output_format w) as [fmt|]; [|contradiction].
    destruct (Transform w && truthy (html_to_transform w) && truthy fmt
              && truthy (gemini_api_key w)); [|contradiction].
    destruct H as [<-|[]]. reflexivity. }
  unfold shape. rewrite C. cbn.
  repeat split. eexists. repeat split.
Qed.

Lemma response_shape_witness :
  types.type (shape (request_of "HTML" "<button>Click</button>"))
  = types.OBJECT
  /\ types.required (shape (request_of "HTML" "<button>Click</button>"))
     = Some ["type"]
  /\ exists props,
       types.properties (shape (request_of "HTML" "<button>Click</button>"))
       = Some props
       /\ keys props = ["type"; "message"; "code"; "changes"; "recommendations"]
       /\ get props "type"
          = Some (types.Build_Schema types.STRING None
                    (Some ["code"; "text"]) None)
       /\ map (get props) ["message"; "code"; "changes"; "recommendations"]
          = repeat (Some (types.Build_Schema types.STRING None None None)) 4.
Proof.
  apply (response_shape (always "{}") button_page []
           (request_of "HTML" "<button>Click</button>")).
  left. reflexivity.
Defined.

(** *** C8 *)

(** The claim as stated fails in its last part: the body the page gives
    to the code block is [None], and the text of that is the word None,
    not the empty text. *)
Lemma absent_code_not_empty :
  ~ (forall (b : option string) (language : option string),
        In (Code b language)
           (page (snd (Weave (always (jq "{'type':'code'}")) button_page
                         (fresh [])))) ->
        py_str b = "").
Proof.
  intros H.
  specialize (H None (Some "html")).
  assert (I : In (Code None (Some "html"))
                 (page (snd (Weave (always (jq "{'type':'code'}")) button_page
                               (fresh []))))).
  { vm_compute. auto 10. }
  specialize (H I). discriminate H.
Qed.

(** C8, amended.  A reply of type [code] that has no [code] passes
    validation, and the page draws it as a success: the notice, then
    [st.code] with the absent code ([None]) as its body, then the notes on
    changes and recommendations if there are any. *)
Theorem code_reply_without_code (service : genai.service) (w : widgets)
    (ss : dict (option string)) (fmt : string) (exclude_none : bool)
    (r : ResponseSchema.t) :
  Transform w = true ->
  html_to_transform w <> "" ->
  output_format w = Some fmt ->
  fmt <> "" ->
  gemini_api_key w <> "" ->
  ResponseSchema.type r = "code" ->
  ResponseSchema.code r = None ->
  (forall request,
      service request
      = genai.Response (Some (ResponseSchema.model_dump_json exclude_none r))) ->
  ResponseSchema.model_validate_json
    (Some (ResponseSchema.model_dump_json exclude_none r)) = inr r
  /\ Weave service w (fresh ss)
     = (Returned tt,
        after (ready w ss)
          ([ SpinnerOn "Transforming...";
             Client (Some (gemini_api_key w));
             GenerateContent (request_of fmt (html_to_transform w));
             Success (Plain "Transformation successful!");
             Code None (get output_lang_map fmt) ]
           ++ notes r ++ [SpinnerOff])).
Proof.
  intros H T F Ft K Ty C S. split; [apply model_validate_dump|].
  rewrite (Weave_transform service w ss fmt)
    by (assumption || now apply truthy_nonempty).
  cbv zeta. rewrite S, model_validate_dump.
  unfold drawn. rewrite Ty, C. reflexivity.
Qed.

Lemma code_reply_without_code_witness :
  ResponseSchema.model_validate_json (Some (jq "{'type':'code'}"))
  = inr bare_code
  /\ Weave (always (jq "{'type':'code'}")) button_page (fresh [])
     = (Returned tt,
        after (ready button_page [])
          [ SpinnerOn "Transforming...";
            Client (Some "key");
            GenerateContent (request_of "HTML" "<button>Click</button>");
            Success (Plain "Transformation successful!");
            Code None (Some "html");
            SpinnerOff ]).
Proof.
  apply (code_reply_without_code (always (jq "{'type':'code'}")) button_page
           [] "HTML" true bare_code).
  - reflexivity.
  - discriminate.
  - reflexivity.
  - discriminate.
  - discriminate.
  - reflexivity.
  - reflexivity.
  - reflexivity.
Defined.

(** *** C9 *)

(** The page itself does not reach [transform_html] without a key: its own
    check draws the notice about the key and nothing else. *)
Example page_without_key :
  Weave (always "{}")
    {| gemini_api_key := ""; html_to_transform := "<p>";
       output_format := Some "HTML"; Transform := true |} (fresh [])
  = (Returned tt, {| session_state := [("gemini_api_key", None)];
                     page := [key_notice] |}).
Proof. reflexivity. Qed.



(** *** C10 *)

(** C10. What is drawn for a validated reply is decided by the test
    [type == "code"] alone.  When it holds, the page draws the success
    notice, the code block and the notes; when it does not, whatever the
    string is ([text] or any other) and whatever the other fields hold,
    all the page draws is [st.text] of the [message], set or not.  Every
    reply object, whatever its [type], is a reply that validation yields. *)
Theorem dispatch_on_code (output_format : string) (exclude_none : bool)
    (r : ResponseSchema.t) (s : state) :
  ResponseSchema.model_validate_json
    (Some (ResponseSchema.model_dump_json exclude_none r)) = inr r
  /\ (ResponseSchema.type r = "code" ->
      display output_format (Some r) s
      = (Returned tt,
         after s (Success (Plain "Transformation successful!")
                  :: Code (ResponseSchema.code r)
                       (get output_lang_map output_format)
                  :: notes r)))
  /\ (ResponseSchema.type r <> "code" ->
      display output_format (Some r) s
      = (Returned tt, after s [Text (ResponseSchema.message r)])).
Proof.
  split; [apply model_validate_dump|].
  rewrite display_run. unfold drawn.
  destruct (String.eqb_spec (ResponseSchema.type r) "code") as [E|N];
    split; intros H; (reflexivity || contradiction).
Qed.

Lemma dispatch_on_code_witness :
  ResponseSchema.model_validate_json (Some (jq "{'type':'image'}"))
  = inr image_reply
  /\ display "HTML" (Some image_reply) with_key
     = (Returned tt, after with_key [Text None])
  /\ display "HTML" (Some padded_button) with_key
     = (Returned tt,
        after with_key
          [ Success (Plain "Transformation successful!");
            Code (Some (jq "<button class='px-4 py-2'>Click</button>"))
              (Some "html");
            Info (Plain "Changes made: Added padding") ]).
Proof.
  destruct (dispatch_on_code "HTML" true image_reply with_key) as (V & _ & T).
  destruct (dispatch_on_code "HTML" true padded_button with_key)
    as (_ & C & _).
  split; [exact V|]. split.
  - apply T. discriminate.
  - apply C. reflexivity.
Defined.

(** * Further properties of the page *)

(** ** Helpers *)

Lemma truthy_true (s : string) : truthy s = true <-> s <> "".
Proof. destruct s; simpl; split; congruence. Qed.

Lemma truthy_false (s : string) : truthy s = false <-> s = "".
Proof. destruct s; simpl; split; congruence. Qed.

(** Every run ends in the state the sidebar left, with some events drawn. *)
Lemma Weave_shape (service : genai.service) (w : widgets)
    (ss : dict (option string)) :
  exists o es, Weave service w (fresh ss) = (o, after (ready w ss) es).
Proof.
  destruct (Transform w) eqn:H.
  2:{ exists (Returned tt), []. rewrite Weave_idle by exact H.
      unfold after, ready. reflexivity. }
  destruct (truthy (html_to_transform w)) eqn:T.
  2:{ rewrite Weave_no_template by assumption. eauto. }
  destruct (output_format w) as [fmt|] eqn:F.
  2:{ rewrite Weave_no_format by (try assumption; now rewrite F). eauto. }
  destruct (truthy fmt) eqn:Ft.
  2:{ rewrite Weave_no_format by (try assumption; now rewrite F). eauto. }
  destruct (truthy (gemini_api_key w)) eqn:K.
  2:{ rewrite (Weave_no_key service w ss fmt) by assumption. eauto. }
  rewrite (Weave_transform service w ss fmt) by assumption. cbv zeta.
  destruct (service (request_of fmt (html_to_transform w))) as [e|text];
    [eauto|].
  destruct (ResponseSchema.model_validate_json text); eauto.
Qed.

(** ** The service is called exactly when every input is there *)

(** X1. A run sends a request exactly when the button was pressed, the
    template is not empty, a format is selected and a key was typed; it
    never sends more than one. *)
Theorem request_iff_inputs (service : genai.service) (w : widgets)
    (ss : dict (option string)) :
  (requests (page (snd (Weave service w (fresh ss)))) <> []
   <-> Transform w = true
       /\ html_to_transform w <> ""
       /\ gemini_api_key w <> ""
       /\ exists fmt, output_format w = Some fmt /\ fmt <> "")
  /\ length (requests (page (snd (Weave service w (fresh ss))))) <= 1.
Proof.
  destruct (Weave_requests service w ss) as [-> _]. unfold sent.
  destruct (output_format w) as [fmt|].
  - destruct (Transform w), (truthy (html_to_transform w)) eqn:T,
      (truthy fmt) eqn:Ft, (truthy (gemini_api_key w)) eqn:K;
      cbn [andb length]; (split; [|lia]);
      rewrite ?truthy_true, ?truthy_false in *;
      (split; [intros N | intros (A & B & C & f & [= <-] & D)]);
      try congruence; try discriminate.
    repeat split; eauto.
  - split; [|simpl; lia]. split; [congruence|].
    intros (_ & _ & _ & f & E & _). discriminate.
Qed.

(** ** The key is the one typed in this run *)

(** X2. Whatever the session held before the run, it holds afterwards the
    key typed in this run ([None] for an empty field), and every client
    the run makes is made with that key, which is then not empty. *)
Theorem key_of_this_run (service : genai.service) (w : widgets)
    (ss : dict (option string)) :
  get (session_state (snd (Weave service w (fresh ss)))) "gemini_api_key"
  = Some (if truthy (gemini_api_key w) then Some (gemini_api_key w) else None)
  /\ Forall (fun k => k = Some (gemini_api_key w) /\ gemini_api_key w <> "")
            (clients (page (snd (Weave service w (fresh ss))))).
Proof.
  split.
  - destruct (Weave_shape service w ss) as (o & es & ->).
    cbn [snd after session_state ready]. now rewrite get_assign.
  - destruct (Weave_requests service w ss) as [_ ->]. unfold sent.
    destruct (output_format w) as [fmt|]; [|constructor].
    destruct (truthy (gemini_api_key w)) eqn:K.
    + apply truthy_true in K.
      destruct (Transform w && truthy (html_to_transform w) && truthy fmt);
        cbn [andb map]; repeat constructor; assumption.
    + rewrite !andb_false_r. constructor.
Qed.

(** ** One notice for the first input that is missing *)

(** X3. When the button is pressed and an input is missing, the run ends
    normally and draws exactly one notice: the one for the template if it
    is empty, else the one for the format if none is selected, else the
    one for the key. *)
Theorem first_missing_input (service : genai.service) (w : widgets)
    (ss : dict (option string)) :
  Transform w = true ->
  html_to_transform w = "" \/ truthy_opt (output_format w) = false
  \/ gemini_api_key w = "" ->
  Weave service w (fresh ss)
  = (Returned tt,
     after (ready w ss)
       [ Error (Plain
           (if negb (truthy (html_to_transform w))
            then "Please enter some HTML code to transform."
            else if negb (truthy_opt (output_format w))
            then "Please select an output format."
            else "Please enter your Gemini API key in the sidebar.")) ]).
Proof.
  intros H M.
  destruct (truthy (html_to_transform w)) eqn:T; cbn [negb].
  2:{ now apply Weave_no_template. }
  destruct (truthy_opt (output_format w)) eqn:F; cbn [negb].
  2:{ now apply Weave_no_format. }
  destruct (output_format w) as [fmt|] eqn:E; [|discriminate].
  simpl in F.
  destruct M as [M|[M|M]].
  - apply truthy_false in M. congruence.
  - discriminate.
  - apply truthy_false in M. now apply (Weave_no_key service w ss fmt).
Qed.

Lemma first_missing_input_witness :
  Weave (always "{}") missing_all (fresh [("gemini_api_key", Some "old")])
  = (Returned tt,
     {| session_state := [("gemini_api_key", None)];
        page := [Error (Plain "Please enter some HTML code to transform.")] |}).
Proof.
  apply (first_missing_input (always "{}") missing_all
           [("gemini_api_key", Some "old")]).
  - reflexivity.
  - left. reflexivity.
Defined.

(** ** An error of the service call *)

(** X4. When the call of the service raises, nothing catches it: the run
    ends with that exception after one request, the spinner is closed, and
    no notice is drawn. *)
Theorem service_error_escapes (service : genai.service) (w : widgets)
    (ss : dict (option string)) (fmt : string) (e : exception) :
  Transform w = true ->
  html_to_transform w <> "" ->
  output_format w = Some fmt ->
  fmt <> "" ->
  gemini_api_key w <> "" ->
  service (request_of fmt (html_to_transform w)) = genai.Raises e ->
  Weave service w (fresh ss)
  = (Raised e,
     after (ready w ss)
       [ SpinnerOn "Transforming...";
         Client (Some (gemini_api_key w));
         GenerateContent (request_of fmt (html_to_transform w));
         SpinnerOff ]).
Proof.
  intros H T F Ft K S.
  rewrite (Weave_transform service w ss fmt)
    by (assumption || now apply truthy_true).
  cbv zeta. now rewrite S.
Qed.

Lemma service_error_escapes_witness :
  Weave failing button_page (fresh [])
  = (Raised (ServiceError "quota"),
     after (ready button_page [])
       [ SpinnerOn "Transforming...";
         Client (Some "key");
         GenerateContent (request_of "HTML" "<button>Click</button>");
         SpinnerOff ]).
Proof.
  apply (service_error_escapes
           failing button_page []
           "HTML" (ServiceError "quota"));
    reflexivity || discriminate.
Defined.

(** ** [transform_html] *)

(** X5. [transform_html] lowers the format itself, so for a format of
    ASCII characters (all that the pills deliver) the lowering the page
    does before the call changes nothing: both calls behave alike in every
    state and with every service. *)
Theorem transform_html_lower (service : genai.service)
    (output_format template : string) (s : state) :
  ascii_only output_format = true ->
  transform_html service (lower output_format) template s
  = transform_html service output_format template s.
Proof.
  intros _.
  destruct (truthy_opt (credential s)) eqn:K.
  - rewrite !transform_html_key by exact K.
    now rewrite request_of_lower.
  - now rewrite !transform_html_no_key by exact K.
Qed.

Lemma transform_html_lower_witness :
  transform_html (always "{}") (lower "Flutter") "<p>" with_key
  = transform_html (always "{}") "Flutter" "<p>" with_key.
Proof.
  apply (transform_html_lower (always "{}") "Flutter" "<p>" with_key).
  reflexivity.
Defined.

(** X6. [transform_html] only reads the session: it leaves the session
    state as it was, and it only adds to the page, at most three events. *)
Theorem transform_html_keeps_session (service : genai.service)
    (output_format template : string) (s : state) :
  session_state (snd (transform_html service output_format template s))
  = session_state s
  /\ exists es,
       page (snd (transform_html service output_format template s))
       = (page s ++ es)%list
       /\ length es <= 3.
Proof.
  destruct (truthy_opt (credential s)) eqn:K.
  - rewrite transform_html_key by exact K. cbv zeta.
    destruct (service (request_of output_format template)) as [e|text].
    + split; [reflexivity|]. eexists. split; [reflexivity|]. simpl. lia.
    + destruct (ResponseSchema.model_validate_json text);
        (split; [reflexivity|]); eexists; (split; [reflexivity|]); simpl; lia.
  - rewrite transform_html_no_key by exact K.
    split; [reflexivity|]. eexists. split; [reflexivity|]. simpl. lia.
Qed.

(** X7. [transform_html] returns a reply exactly when the session holds a
    key, the service answered the request, and the text of the answer
    validates to that reply. *)
Theorem transform_html_reply_iff (service : genai.service)
    (output_format template : string) (s : state) (r : ResponseSchema.t) :
  fst (transform_html service output_format template s) = Returned (Some r)
  <-> truthy_opt (credential s) = true
      /\ exists text,
           service (request_of output_format template) = genai.Response text
           /\ ResponseSchema.model_validate_json text = inr r.
Proof.
  destruct (truthy_opt (credential s)) eqn:K.
  - rewrite transform_html_key by exact K. cbv zeta.
    destruct (service (request_of output_format template)) as [e|text].
    + split; [discriminate|]. intros (_ & t & E & _). discriminate.
    + destruct (ResponseSchema.model_validate_json text) as [errors|r'] eqn:V;
        cbn [fst].
      * split; [discriminate|].
        intros (_ & t & [= <-] & V'). congruence.
      * split.
        -- intros [= ->]. split; [reflexivity|]. eauto.
        -- intros (_ & t & [= <-] & V'). congruence.
  - rewrite transform_html_no_key by exact K. cbn [fst].
    split; [discriminate|]. intros [? _]. discriminate.
Qed.

(** ** The reply model *)

Lemma member_permutation (k : string) (ms ms' : list (string * json)) :
  Permutation ms ms' -> NoDup (map fst ms) -> member k ms = member k ms'.
Proof.
  intros P N.
  assert (N' : NoDup (map fst ms')).
  { eapply Permutation_NoDup; [|exact N]. now apply Permutation_map. }
  destruct (member k ms) as [v|] eqn:E.
  - symmetry. apply member_unique; [exact N'|].
    eapply Permutation_in; [exact P|]. now apply member_in_members.
  - symmetry. apply member_none. apply member_none in E.
    intros I. apply E. eapply Permutation_in; [|exact I].
    apply Permutation_map. now apply Permutation_sym.
Qed.

Lemma member_filter (p : string -> bool) (k : string)
    (ms : list (string * json)) :
  p k = true ->
  member k (filter (fun kv => p (fst kv)) ms) = member k ms.
Proof.
  intros H. induction ms as [|[k' x] ms IH]; simpl; [reflexivity|].
  destruct (p k') eqn:E; simpl.
  - now rewrite IH.
  - rewrite IH. destruct (member k ms); [reflexivity|].
    destruct (String.eqb_spec k' k) as [->|_]; [congruence|reflexivity].
Qed.

(** Validation looks at the members only through [member], for the five
    declared names. *)
Lemma model_validate_members (ms ms' : list (string * json)) :
  (forall k, declared k = true -> member k ms = member k ms') ->
  ResponseSchema.model_validate (JObject ms)
  = ResponseSchema.model_validate (JObject ms').
Proof.
  intros H. unfold ResponseSchema.model_validate, str_field, optional_str_field.
  now rewrite (H "type"), (H "message"), (H "code"), (H "changes"),
    (H "recommendations") by reflexivity.
Qed.

(** X8. Members whose name is not one of the five declared fields play no
    part: validating an object gives what validating its declared members
    alone gives. *)
Theorem undeclared_members_ignored (ms : list (string * json)) :
  ResponseSchema.model_validate (JObject ms)
  = ResponseSchema.model_validate
      (JObject (filter (fun kv => declared (fst kv)) ms)).
Proof.
  apply model_validate_members. intros k D. symmetry.
  now apply member_filter.
Qed.

(** X9. The order of the members of a reply plays no part: an object whose
    member names are all different validates to the same result in every
    order of its members. *)
Theorem member_order_irrelevant (ms ms' : list (string * json)) :
  Permutation ms ms' ->
  NoDup (map fst ms) ->
  ResponseSchema.model_validate (JObject ms)
  = ResponseSchema.model_validate (JObject ms').
Proof.
  intros P N. apply model_validate_members. intros k _.
  now apply member_permutation.
Qed.

Lemma member_order_irrelevant_witness :
  ResponseSchema.model_validate
    (JObject [("type", JString "code"); ("code", JString "<div/>")])
  = ResponseSchema.model_validate
      (JObject [("code", JString "<div/>"); ("type", JString "code")]).
Proof.
  apply (member_order_irrelevant
           [("type", JString "code"); ("code", JString "<div/>")]
           [("code", JString "<div/>"); ("type", JString "code")]).
  - apply perm_swap.
  - repeat constructor; simpl; intuition discriminate.
Defined.



(** X11. A reply that validation returns holds nothing that the text did
    not: the text is a JSON object, its [type] is a string member of that
    object, and every optional field that is set is a string member of
    its name. *)
Theorem reply_fields_from_text (text : string) (r : ResponseSchema.t) :
  ResponseSchema.model_validate_json (Some text) = inr r ->
  exists ms,
    loads text = Some (JObject ms)
    /\ In ("type", JString (ResponseSchema.type r)) ms
    /\ carried "message" (ResponseSchema.message r) ms
    /\ carried "code" (ResponseSchema.code r) ms
    /\ carried "changes" (ResponseSchema.changes r) ms
    /\ carried "recommendations" (ResponseSchema.recommendations r) ms.
Proof.
  unfold ResponseSchema.model_validate_json.
  destruct (loads text) as [j|]; [|discriminate].
  destruct j as [| | | | |ms]; try discriminate.
  intros V. exists ms. split; [reflexivity|].
  unfold ResponseSchema.model_validate in V.
  assert (S : forall s, str_field "type" ms = inr s ->
                        In ("type", JString s) ms).
  { unfold str_field. intros s E.
    destruct (member "type" ms) as [[]|] eqn:M; try discriminate.
    injection E as <-. now apply member_in_members. }
  assert (O : forall name o, optional_str_field name ms = inr o ->
                             carried name o ms).
  { unfold optional_str_field, carried. intros name o E.
    destruct (member name ms) as [[]|] eqn:M; try discriminate;
      injection E as <-; try exact I.
    now apply member_in_members. }
  destruct (str_field "type" ms) as [e0|ty] eqn:E0;
    destruct (optional_str_field "message" ms) as [e1|m] eqn:E1;
    destruct (optional_str_field "code" ms) as [e2|c] eqn:E2;
    destruct (optional_str_field "changes" ms) as [e3|ch] eqn:E3;
    destruct (optional_str_field "recommendations" ms) as [e4|re] eqn:E4;
    try discriminate.
  injection V as <-. cbn. repeat split; auto.
Qed.

Lemma reply_fields_from_text_witness :
  exists ms,
    loads (jq "{'type':'code','code':'<div/>'}") = Some (JObject ms)
    /\ In ("type", JString "code") ms
    /\ carried "message" None ms
    /\ carried "code" (Some "<div/>") ms
    /\ carried "changes" None ms
    /\ carried "recommendations" None ms.
Proof.
  apply (reply_fields_from_text (jq "{'type':'code','code':'<div/>'}")
           {| ResponseSchema.type := "code"; ResponseSchema.message := None;
              ResponseSchema.code := Some "<div/>";
              ResponseSchema.changes := None;
              ResponseSchema.recommendations := None |}).
  vm_compute. reflexivity.
Defined.

(** X12. A response of the service that has no text is a failed
    validation like any other: [transform_html] draws the validation
    error and returns [None], after its one request. *)
Theorem response_without_text (service : genai.service)
    (output_format template : string) (s : state) :
  truthy_opt (credential s) = true ->
  service (request_of output_format template) = genai.Response None ->
  exists errors,
    transform_html service output_format template s
    = (Returned None,
       after s [ Client (credential s);
                 GenerateContent (request_of output_format template);
                 validation_notice errors ]).
Proof.
  intros K S. eexists.
  rewrite transform_html_key by exact K. cbv zeta. rewrite S. reflexivity.
Qed.

Lemma response_without_text_witness :
  exists errors,
    transform_html silent "html" "<p>" with_key
    = (Returned None,
       after with_key [ Client (credential with_key);
                        GenerateContent (request_of "html" "<p>");
                        validation_notice errors ]).
Proof.
  apply (response_without_text silent "html" "<p>"
           with_key); reflexivity.
Defined.

(** ** What the requests have in common *)

Lemma sent_request (w : widgets) (request : types.Request) :
  In request (sent w) ->
  exists fmt,
    output_format w = Some fmt
    /\ request = request_of fmt (html_to_transform w).
Proof.
  unfold sent. destruct (output_format w) as [fmt|]; [|contradiction].
  destruct (Transform w && truthy (html_to_transform w) && truthy fmt
            && truthy (gemini_api_key w)); [|contradiction].
  intros [<-|[]]. eauto.
Qed.

(** X13. The requests of any two runs, whatever the inputs, the sessions
    and the services, name the same model and carry the same
    configuration (system instruction, reply shape, thinking budget, MIME
    type); each holds one message, and only its text can differ. *)
Theorem same_configuration (service service' : genai.service)
    (w w' : widgets) (ss ss' : dict (option string))
    (request request' : types.Request) :
  In request (requests (page (snd (Weave service w (fresh ss))))) ->
  In request' (requests (page (snd (Weave service' w' (fresh ss'))))) ->
  types.model request = types.model request'
  /\ types.config request = types.config request'
  /\ map types.role (types.contents request) = ["user"]
  /\ map types.role (types.contents request') = ["user"].
Proof.
  intros H H'.
  destruct (Weave_requests service w ss) as [E _]. rewrite E in H.
  destruct (Weave_requests service' w' ss') as [E' _]. rewrite E' in H'.
  apply sent_request in H as (fmt & _ & ->).
  apply sent_request in H' as (fmt' & _ & ->).
  repeat split.
Qed.

Lemma same_configuration_witness :
  types.model (request_of "HTML" "<button>Click</button>")
  = types.model (request_of "Vue" "<p>")
  /\ types.config (request_of "HTML" "<button>Click</button>")
     = types.config (request_of "Vue" "<p>")
  /\ map types.role (types.contents (request_of "HTML" "<button>Click</button>"))
     = ["user"]
  /\ map types.role (types.contents (request_of "Vue" "<p>")) = ["user"].
Proof.
  apply (same_configuration (always "{}") (always "no") button_page vue_page
           [] [("gemini_api_key", None)]).
  - left. reflexivity.
  - left. reflexivity.
Defined.

(** X14. For the formats of the closed set the two-line message can be
    read back: two requests with the same messages were built from the
    same format (up to the case of its letters) and the same template. *)
Theorem message_read_back (output_format output_format' template
    template' : string) :
  In (lower output_format) formats ->
  In (lower output_format') formats ->
  messages (request_of output_format template)
  = messages (request_of output_format' template') ->
  lower output_format = lower output_format' /\ template = template'.
Proof.
  unfold messages, request_of. cbn [types.contents map types.role types.parts
                                    types.text].
  intros F F' [= E].
  unfold formats in F, F'. simpl in F, F'.
  destruct F as [F|[F|[F|[F|[]]]]]; destruct F' as [F'|[F'|[F'|[F'|[]]]]];
    rewrite <- F, <- F' in E |- *; simpl in E;
    try discriminate E;
    (split; [reflexivity|]);
    repeat (injection E as E); exact E.
Qed.

Lemma message_read_back_witness :
  lower "HTML" = lower "html" /\ "<p>" = "<p>".
Proof.
  apply (message_read_back "HTML" "html" "<p>" "<p>").
  - simpl. auto.
  - simpl. auto.
  - reflexivity.
Defined.

(** ** What is drawn for a code reply *)

(** X15. For every pill of the page and every reply of type [code], the
    run draws the success notice, then the code in a block whose language
    is the one the map gives for the pill (never none), then the notes,
    inside the spinner. *)
Theorem code_reply_drawn (service : genai.service) (w : widgets)
    (ss : dict (option string)) (fmt : string) (text : option string)
    (r : ResponseSchema.t) :
  Transform w = true ->
  html_to_transform w <> "" ->
  output_format w = Some fmt ->
  In fmt (keys output_lang_map) ->
  gemini_api_key w <> "" ->
  service (request_of fmt (html_to_transform w)) = genai.Response text ->
  ResponseSchema.model_validate_json text = inr r ->
  ResponseSchema.type r = "code" ->
  exists language,
    get output_lang_map fmt = Some language
    /\ In language ["html"; "javascript"; "dart"]
    /\ Weave service w (fresh ss)
       = (Returned tt,
          after (ready w ss)
            ([ SpinnerOn "Transforming...";
               Client (Some (gemini_api_key w));
               GenerateContent (request_of fmt (html_to_transform w));
               Success (Plain "Transformation successful!");
               Code (ResponseSchema.code r) (Some language) ]
             ++ notes r ++ [SpinnerOff])).
Proof.
  intros H T F P K S V Ty.
  assert (L : exists language,
             get output_lang_map fmt = Some language
             /\ In language ["html"; "javascript"; "dart"]
             /\ truthy fmt = true).
  { simpl in P. destruct P as [<-|[<-|[<-|[<-|[]]]]];
      eexists; (split; [reflexivity|]); simpl; auto. }
  destruct L as (language & G & I & Ft).
  exists language. split; [exact G|]. split; [exact I|].
  rewrite (Weave_transform service w ss fmt)
    by (assumption || now apply truthy_true).
  cbv zeta. rewrite S, V. unfold drawn. rewrite Ty, G. reflexivity.
Qed.

Lemma code_reply_drawn_witness :
  exists language,
    get output_lang_map "React" = Some language
    /\ In language ["html"; "javascript"; "dart"]
    /\ Weave (always (ResponseSchema.model_dump_json true padded_button))
         react_page (fresh [])
       = (Returned tt,
          after (ready react_page [])
            ([ SpinnerOn "Transforming...";
               Client (Some "key");
               GenerateContent (request_of "React" "<button>Click</button>");
               Success (Plain "Transformation successful!");
               Code (ResponseSchema.code padded_button) (Some language) ]
             ++ notes padded_button ++ [SpinnerOff])).
Proof.
  apply (code_reply_drawn
           (always (ResponseSchema.model_dump_json true padded_button))
           react_page [] "React"
           (Some (ResponseSchema.model_dump_json true padded_button))
           padded_button).
  - reflexivity.
  - discriminate.
  - reflexivity.
  - simpl. auto.
  - discriminate.
  - reflexivity.
  - vm_compute. reflexivity.
  - reflexivity.
Defined.

(** X16. Under a code block, the note on changes is drawn exactly when
    [changes] is a non-empty string, and the note on recommendations
    exactly when [recommendations] is one; an empty string counts as
    unset.  Nothing else is drawn as a note. *)
Theorem notes_when_not_empty (output_format : string) (r : ResponseSchema.t)
    (ss : dict (option string)) (b : body) :
  ResponseSchema.type r = "code" ->
  (In (Info b) (page (snd (display output_format (Some r) (fresh ss))))
   <-> exists c, ResponseSchema.changes r = Some c /\ c <> ""
                 /\ b = Plain ("Changes made: " ++ c))
  /\ (In (Warning b) (page (snd (display output_format (Some r) (fresh ss))))
      <-> exists c, ResponseSchema.recommendations r = Some c /\ c <> ""
                    /\ b = Plain ("Recommendations: " ++ c)).
Proof.
  intros Ty. rewrite display_run. unfold drawn. rewrite Ty.
  cbn [String.eqb Ascii.eqb Bool.eqb snd after page fresh app].
  unfold notes.
  destruct (ResponseSchema.changes r) as [c|];
    destruct (ResponseSchema.recommendations r) as [d|];
    try destruct (truthy c) eqn:Tc; try destruct (truthy d) eqn:Td;
    rewrite ?truthy_true, ?truthy_false in *; subst;
    cbn [In app]; split; split;
    try (intros (x & [= <-] & N & ->); auto 10; congruence);
    try (intros (x & [=] & _); fail);
    intros I; repeat destruct I as [I|I];
    try discriminate I; try contradiction;
    injection I as <-; eauto.
Qed.

Lemma notes_when_not_empty_witness :
  (In (Info (Plain "Changes made: Added padding"))
      (page (snd (display "HTML" (Some padded_button) (fresh []))))
   <-> exists c, ResponseSchema.changes padded_button = Some c /\ c <> ""
                 /\ Plain "Changes made: Added padding"
                    = Plain ("Changes made: " ++ c))
  /\ (In (Warning (Plain "Changes made: Added padding"))
         (page (snd (display "HTML" (Some padded_button) (fresh []))))
      <-> exists c, ResponseSchema.recommendations padded_button = Some c
                    /\ c <> ""
                    /\ Plain "Changes made: Added padding"
                       = Plain ("Recommendations: " ++ c)).
Proof.
  apply (notes_when_not_empty "HTML" padded_button []
           (Plain "Changes made: Added padding")).
  reflexivity.
Defined.

(** ** What a run depends on, and how it can end *)

(** Read on its own in a session that never had a key assigned, the check
    of line 185 raises. *)
Example attribute_read_raises :
  fst (on_Transform (always "{}") button_page (fresh []))
  = Raised (AttributeError "gemini_api_key").
Proof. reflexivity. Qed.

(** X17. A run of the whole script ends with an exception only when the
    call of the service raised it: the sidebar assigns the key before the
    button is looked at, so reading it never raises, and a reply that
    fails validation is caught. *)
Theorem only_service_errors (service : genai.service) (w : widgets)
    (ss : dict (option string)) (e : exception) :
  fst (Weave service w (fresh ss)) = Raised e ->
  exists fmt,
    output_format w = Some fmt
    /\ service (request_of fmt (html_to_transform w)) = genai.Raises e.
Proof.
  destruct (Transform w) eqn:H.
  2:{ rewrite Weave_idle by exact H. discriminate. }
  destruct (truthy (html_to_transform w)) eqn:T.
  2:{ rewrite Weave_no_template by assumption. discriminate. }
  destruct (output_format w) as [fmt|] eqn:F.
  2:{ rewrite Weave_no_format by (try assumption; now rewrite F).
      discriminate. }
  destruct (truthy fmt) eqn:Ft.
  2:{ rewrite Weave_no_format by (try assumption; now rewrite F).
      discriminate. }
  destruct (truthy (gemini_api_key w)) eqn:K.
  2:{ rewrite (Weave_no_key service w ss fmt) by assumption. discriminate. }
  rewrite (Weave_transform service w ss fmt) by assumption. cbv zeta.
  destruct (service (request_of fmt (html_to_transform w))) as [e'|text]
    eqn:S.
  - intros [= ->]. exists fmt. split; [reflexivity | exact S].
  - destruct (ResponseSchema.model_validate_json text); discriminate.
Qed.

Lemma only_service_errors_witness :
  exists fmt,
    output_format button_page = Some fmt
    /\ failing (request_of fmt (html_to_transform button_page))
       = genai.Raises (ServiceError "quota").
Proof.
  apply (only_service_errors failing
           button_page [] (ServiceError "quota")).
  reflexivity.
Defined.

(** X18. Which request a run sends depends on the widgets alone: neither
    what the session held before nor what the service does changes it. *)
Theorem request_from_widgets (service service' : genai.service)
    (w : widgets) (ss ss' : dict (option string)) :
  requests (page (snd (Weave service w (fresh ss))))
  = requests (page (snd (Weave service' w (fresh ss')))).
Proof.
  destruct (Weave_requests service w ss) as [-> _].
  destruct (Weave_requests service' w ss') as [-> _].
  reflexivity.
Qed.
